(** * AliseFSSeg: the fully supervised segmentation training adapter

    A shallow embedding of
    [src/alise_minimal/lightning_module/fully_supervised_segmentation.py].

    The adapter owns a model, a decoder head and three clones of a metric
    collection; the training loop calls its step methods once per batch and
    its epoch-end hooks once per epoch.  Methods are embedded in a state and
    exception monad over a [World]: the adapter object, the store holding
    the metric-collection objects, and the logging sink. *)

From Stdlib Require Import ZArith List String Lia Permutation.
From stdpp Require Import base list strings.
Import ListNotations.

(** ** Tensors *)

Module Tensors.

Inductive Device : Type :=
| cpu
| cuda (index : nat).

(** A contiguous tensor: its shape, its elements in row-major order (each
    element kept as the integer encoding of its bit pattern, which the
    adapter moves around but never inspects) and the device holding it. *)
Record Tensor : Type := mkTensor {
  shape : list nat;
  data : list Z;
  device : Device
}.

Definition numel (s : list nat) : nat := fold_right Nat.mul 1 s.

Definition well_formed (x : Tensor) : Prop :=
  length (data x) = numel (shape x).

(** Row-major offset of a multi-index. *)
Fixpoint offset_from (acc : nat) (s idx : list nat) : nat :=
  match s, idx with
  | d :: s', i :: idx' => offset_from (acc * d + i) s' idx'
  | _, _ => acc
  end.

Definition get (x : Tensor) (idx : list nat) : Z :=
  nth (offset_from 0 (shape x) idx) (data x) 0%Z.

(** [x.to(device="cpu", non_blocking=True)] *)
Definition to_cpu (x : Tensor) : Tensor :=
  {| shape := shape x; data := data x; device := cpu |}.

Definition host_resident (x : Tensor) : Prop := device x = cpu.

End Tensors.
Export Tensors.

(** ** Exceptions and results *)

Inductive Exn : Type :=
| EinopsError
| IndexError
| AttributeError (attr : string)
| KeyError
| ExternalError (msg : string).

Inductive Res (A : Type) : Type :=
| Ok (a : A)
| Raise (e : Exn).
Arguments Ok {A} a.
Arguments Raise {A} e.

Definition res_bind {A B} (r : Res A) (k : A -> Res B) : Res B :=
  match r with
  | Ok a => k a
  | Raise e => Raise e
  end.

(** ** einops.rearrange and indexing, for the patterns the adapter uses *)

(** [rearrange(x, "B T C H W -> B H W (T C)")] *)
Definition rearrange_BTCHW_BHWTC (x : Tensor) : Res Tensor :=
  match shape x with
  | [B; T; C; H; W] =>
      Ok {| shape := [B; H; W; T * C];
            data :=
              flat_map (fun b =>
              flat_map (fun h =>
              flat_map (fun w =>
              flat_map (fun t =>
              map (fun c =>
                nth ((((b * T + t) * C + c) * H + h) * W + w) (data x) 0%Z)
                (seq 0 C)) (seq 0 T)) (seq 0 W)) (seq 0 H)) (seq 0 B);
            device := device x |}
  | _ => Raise EinopsError
  end.

(** [rearrange(x, "B H W F -> B F H W")] *)
Definition rearrange_BHWF_BFHW (x : Tensor) : Res Tensor :=
  match shape x with
  | [B; H; W; F] =>
      Ok {| shape := [B; F; H; W];
            data :=
              flat_map (fun b =>
              flat_map (fun f =>
              flat_map (fun h =>
              map (fun w =>
                nth (((b * H + h) * W + w) * F + f) (data x) 0%Z)
                (seq 0 W)) (seq 0 H)) (seq 0 F)) (seq 0 B);
            device := device x |}
  | _ => Raise EinopsError
  end.

(** [x[:, 0, ...]]: the first slot along the second axis. *)
Definition first_slot (x : Tensor) : Res Tensor :=
  match shape x with
  | B :: T :: rest =>
      match T with
      | O => Raise IndexError
      | S _ =>
          let r := numel rest in
          Ok {| shape := B :: rest;
                data :=
                  flat_map (fun b =>
                  map (fun j => nth (b * T * r + j) (data x) 0%Z) (seq 0 r))
                  (seq 0 B);
                device := device x |}
      end
  | _ => Raise IndexError
  end.

(** ** External collaborators *)

(** Modelled from the spec: the batch container [CDBInput] is declared
    outside this file; it holds [year1] (with [sits], [positions] and
    [pad_mask]) and [label]. *)
Record OneYear : Type := {
  sits : Tensor;
  positions : Tensor;
  pad_mask : Tensor
}.

Record CDBInput : Type := {
  year1 : OneYear;
  label : Tensor
}.

(** The model is a black box exposing
    [forward(sits, positions, pad_mask) -> tensor]. *)
Record ALISE : Type := {
  alise_forward : Tensor -> Tensor -> Tensor -> Res Tensor
}.

(** The decoder is any [nn.Module]: a tensor-to-tensor transform. *)
Record Module_ : Type := {
  call : Tensor -> Res Tensor
}.

(** Modelled from the spec: the base training module [TemplateModule] and
    its [TrainConfig] are declared outside this file; the base supplies the
    loss function [self.loss] and the batch size [self.bs]. *)
Record TrainConfig : Type := {
  cfg_loss : Tensor -> Tensor -> Res Tensor;
  cfg_bs : nat
}.

(** ** Metrics (torchmetrics contract) *)

(** One metric: its accumulated state (a list of state tensors), and the
    update and compute behaviour of its class.  A failing update leaves the
    state as it was. *)
Record Metric : Type := {
  metric_update : list Tensor -> Tensor -> Tensor -> Res (list Tensor);
  metric_compute : list Tensor -> Tensor;
  metric_state : list Tensor
}.

Definition with_state (m : Metric) (st : list Tensor) : Metric :=
  {| metric_update := metric_update m;
     metric_compute := metric_compute m;
     metric_state := st |}.

Definition Metric_update (m : Metric) (preds target : Tensor) : Res Metric :=
  res_bind (metric_update m (metric_state m) preds target)
           (fun st => Ok (with_state m st)).

Definition Metric_compute (m : Metric) : Tensor :=
  metric_compute m (metric_state m).

(** A metric collection: an ordered dictionary from metric names to
    metrics, and the prefix put before every name in its results. *)
Record MetricCollection : Type := {
  prefix : option string;
  metrics_of : list (string * Metric)
}.

Definition set_name (p : option string) (k : string) : string :=
  match p with
  | Some s => s +:+ k
  | None => k
  end.

(** [MetricCollection.update]: every metric in turn; the first failure
    stops the walk and the metrics before it stay updated. *)
Fixpoint update_items (ms : list (string * Metric)) (preds target : Tensor)
  : Res unit * list (string * Metric) :=
  match ms with
  | [] => (Ok tt, [])
  | (k, m) :: rest =>
      match Metric_update m preds target with
      | Ok m' =>
          let r := update_items rest preds target in
          (fst r, (k, m') :: snd r)
      | Raise e => (Raise e, ms)
      end
  end.

Definition MetricCollection_update (mc : MetricCollection)
    (preds target : Tensor) : Res unit * MetricCollection :=
  let r := update_items (metrics_of mc) preds target in
  (fst r, {| prefix := prefix mc; metrics_of := snd r |}).

(** [MetricCollection.compute]: the mapping from prefixed names to values. *)
Definition MetricCollection_compute (mc : MetricCollection)
  : list (string * Tensor) :=
  map (fun km => (set_name (prefix mc) (fst km), Metric_compute (snd km)))
      (metrics_of mc).

(** [MetricCollection.clone(prefix=p)]: a deep copy, whose prefix is
    replaced when [p] is a non-empty string. *)
Definition MetricCollection_clone (mc : MetricCollection) (p : string)
  : MetricCollection :=
  {| prefix := match p with
               | EmptyString => prefix mc
               | _ => Some p
               end;
     metrics_of := metrics_of mc |}.

(** ** The object store *)

(** Metric collections are mutable objects; a reference is an index into
    the store, and a new object is placed at the end. *)
Abbreviation Ref := nat (only parsing).
Abbreviation Heap := (list MetricCollection) (only parsing).

Definition alloc (h : Heap) (mc : MetricCollection) : Heap * Ref :=
  (h ++ [mc], length h).

Definition heap_clone (h : Heap) (r : Ref) (p : string) : Res (Heap * Ref) :=
  match h !! r with
  | Some mc => Ok (alloc h (MetricCollection_clone mc p))
  | None => Raise (ExternalError "dangling reference")
  end.

Record FSSegTrainConfig : Type := {
  train_base : TrainConfig;
  metrics : Ref
}.

(** ** The adapter and its world *)

Record AliseFSSeg : Type := {
  loss : Tensor -> Tensor -> Res Tensor;
  bs : nat;
  model : ALISE;
  decoder : Module_;
  train_metrics : Ref;
  val_metrics : Ref;
  test_metrics : Ref;
  (** [None] while the attribute has never been assigned *)
  save_test_metrics : option (list (string * Tensor))
}.

(** One call of [self.log]. *)
Record LogEntry : Type := {
  log_name : string;
  log_value : Tensor;
  log_on_step : option bool;
  log_on_epoch : option bool;
  log_batch_size : option nat;
  log_prog_bar : bool
}.

(** Calls received by the metric-collection objects, kept to count them. *)
Inductive Call : Type :=
| CallUpdate (r : Ref) (preds target : Tensor)
| CallCompute (r : Ref).

Record World : Type := {
  this : AliseFSSeg;
  heap : Heap;
  sink : list LogEntry;
  calls : list Call
}.

(** ** The state and exception monad of the methods *)

Definition M (A : Type) : Type := World -> Res A * World.

Definition ret {A} (a : A) : M A := fun w => (Ok a, w).

Definition bind {A B} (k : A -> M B) (m : M A) : M B :=
  fun w =>
    match m w with
    | (Ok a, w') => k a w'
    | (Raise e, w') => (Raise e, w')
    end.

#[global] Instance M_ret : MRet M := @ret.
#[global] Instance M_bind : MBind M := @bind.

Definition lift {A} (r : Res A) : M A := fun w => (r, w).

Definition get_self : M AliseFSSeg := fun w => (Ok (this w), w).

Definition forward (batch : CDBInput) : M Tensor :=
  self ← get_self;
  x ← lift (alise_forward (model self)
              (sits (year1 batch))
              (positions (year1 batch))
              (pad_mask (year1 batch)));
  x ← lift (rearrange_BTCHW_BHWTC x);
  x ← lift (call (decoder self) x);
  lift (rearrange_BHWF_BFHW x).

Definition shared_step (batch : CDBInput) : M (Tensor * Tensor) :=
  out ← forward batch;
  self ← get_self;
  target ← lift (first_slot (label batch));
  loss ← lift (loss self out target);
  ret (out, loss).

(** *** Calls on the metric-collection objects *)

Definition with_heap (w : World) (h : Heap) (c : Call) : World :=
  {| this := this w; heap := h; sink := sink w; calls := calls w ++ [c] |}.

(** [collection.update(preds, target)], in place. *)
Definition update_call (r : Ref) (preds target : Tensor) : M unit :=
  fun w =>
    match heap w !! r with
    | Some mc =>
        let res := MetricCollection_update mc preds target in
        (fst res,
         with_heap w (<[r := snd res]> (heap w)) (CallUpdate r preds target))
    | None => (Raise (ExternalError "dangling reference"), w)
    end.

(** [collection.compute()] *)
Definition compute_call (r : Ref) : M (list (string * Tensor)) :=
  fun w =>
    match heap w !! r with
    | Some mc =>
        (Ok (MetricCollection_compute mc),
         with_heap w (heap w) (CallCompute r))
    | None => (Raise (ExternalError "dangling reference"), w)
    end.

(** *** The logging sink *)

(** Modelled from the spec: the logging sink of the base module,
    [self.log(name, value, on_step=.., on_epoch=.., batch_size=..,
    prog_bar=..)], records one entry per call. *)
Definition log (name : string) (value : Tensor)
    (on_step on_epoch : option bool) (batch_size : option nat)
    (prog_bar : bool) : M unit :=
  fun w =>
    (Ok tt,
     {| this := this w;
        heap := heap w;
        sink := sink w ++ [{| log_name := name;
                              log_value := value;
                              log_on_step := on_step;
                              log_on_epoch := on_epoch;
                              log_batch_size := batch_size;
                              log_prog_bar := prog_bar |}];
        calls := calls w |}).

(** What [self.log_dict] is given: a mapping of computed values, or a
    metric collection itself. *)
Inductive LogDictArg : Type :=
| OfMapping (d : list (string * Tensor))
| OfCollection (r : Ref).

Fixpoint log_items (d : list (string * Tensor))
    (on_step on_epoch : option bool) (batch_size : option nat)
    (prog_bar : bool) : M unit :=
  match d with
  | [] => ret tt
  | (k, v) :: rest =>
      log k v on_step on_epoch batch_size prog_bar;;
      log_items rest on_step on_epoch batch_size prog_bar
  end.

(** Modelled from the spec: [self.log_dict] belongs to the base module,
    declared outside this file.  It logs every item of the mapping with the
    same options; given a metric collection, the aggregate is computed
    implicitly inside the call and the prefixed names are logged. *)
Definition log_dict (arg : LogDictArg) (on_epoch : option bool)
    (batch_size : option nat) (prog_bar : bool) : M unit :=
  d ← match arg with
      | OfMapping d => ret d
      | OfCollection r => compute_call r
      end;
  log_items d None on_epoch batch_size prog_bar.

(** *** Step methods and epoch-end hooks *)

Definition training_step (batch : CDBInput) (batch_idx : Z) : M Tensor :=
  '(out, loss) ← shared_step batch;
  self ← get_self;
  target ← lift (first_slot (label batch));
  update_call (train_metrics self) out target;;
  log "train_loss" loss (Some true) (Some true) (Some (bs self)) true;;
  ret loss.

Definition on_train_epoch_end : M unit :=
  self ← get_self;
  compute_call (train_metrics self);;
  log_dict (OfCollection (train_metrics self))
           (Some true) (Some (bs self)) true.

Definition validation_step (batch : CDBInput) (batch_idx : Z) : M unit :=
  '(out, _) ← shared_step batch;
  self ← get_self;
  target ← lift (first_slot (label batch));
  update_call (val_metrics self) out target.

Definition on_validation_epoch_end : M unit :=
  self ← get_self;
  outputs ← compute_call (val_metrics self);
  log_dict (OfMapping outputs) (Some true) (Some (bs self)) true.

Definition test_step (batch : CDBInput) (batch_idx : Z) : M unit :=
  '(out, _) ← shared_step batch;
  self ← get_self;
  target ← lift (first_slot (label batch));
  update_call (test_metrics self) out target.

Definition set_save_test_metrics (outputs : list (string * Tensor)) : M unit :=
  fun w =>
    (Ok tt,
     {| this := {| loss := loss (this w);
                   bs := bs (this w);
                   model := model (this w);
                   decoder := decoder (this w);
                   train_metrics := train_metrics (this w);
                   val_metrics := val_metrics (this w);
                   test_metrics := test_metrics (this w);
                   save_test_metrics := Some outputs |};
        heap := heap w;
        sink := sink w;
        calls := calls w |}).

Definition on_test_epoch_end : M unit :=
  self ← get_self;
  outputs ← compute_call (test_metrics self);
  let outputs := map (fun kv => (fst kv, to_cpu (snd kv))) outputs in
  log_dict (OfMapping outputs) (Some true) (Some (bs self)) true;;
  set_save_test_metrics outputs.

(** Reading [self.save_test_metrics] from outside. *)
Definition read_save_test_metrics : M (list (string * Tensor)) :=
  self ← get_self;
  match save_test_metrics self with
  | Some d => ret d
  | None => lift (Raise (AttributeError "save_test_metrics"))
  end.

(** *** Construction *)

(** Modelled from the spec: the base constructor
    [TemplateModule.__init__] is declared outside this file; it takes the
    loss and the batch size from the configuration and assigns no other
    attribute. *)
Record TemplateModule : Type := {
  tm_loss : Tensor -> Tensor -> Res Tensor;
  tm_bs : nat
}.

Definition TemplateModule_init (train_config : TrainConfig) : TemplateModule :=
  {| tm_loss := cfg_loss train_config; tm_bs := cfg_bs train_config |}.

(** [AliseFSSeg.__init__]: after the base constructor, store the model and
    the decoder and clone the configured collection once per phase. *)
Definition AliseFSSeg_init (alise : ALISE) (decoder : Module_)
    (train_config : FSSegTrainConfig) (h : Heap) : Res World :=
  let base := TemplateModule_init (train_base train_config) in
  let metrics := metrics train_config in
  res_bind (heap_clone h metrics "train_") (fun '(h1, tr) =>
  res_bind (heap_clone h1 metrics "val_") (fun '(h2, va) =>
  res_bind (heap_clone h2 metrics "test_") (fun '(h3, te) =>
  Ok {| this := {| loss := tm_loss base;
                   bs := tm_bs base;
                   model := alise;
                   decoder := decoder;
                   train_metrics := tr;
                   val_metrics := va;
                   test_metrics := te;
                   save_test_metrics := None |};
        heap := h3;
        sink := [];
        calls := [] |}))).

(** *** The training loop's view: a sequence of hook invocations *)

Inductive Phase : Type := Train | Validation | Test.

Inductive Hook : Type :=
| TrainingStep (batch : CDBInput) (batch_idx : Z)
| OnTrainEpochEnd
| ValidationStep (batch : CDBInput) (batch_idx : Z)
| OnValidationEpochEnd
| TestStep (batch : CDBInput) (batch_idx : Z)
| OnTestEpochEnd.

Definition phase_of (k : Hook) : Phase :=
  match k with
  | TrainingStep _ _ | OnTrainEpochEnd => Train
  | ValidationStep _ _ | OnValidationEpochEnd => Validation
  | TestStep _ _ | OnTestEpochEnd => Test
  end.

Definition phase_metrics (p : Phase) (self : AliseFSSeg) : Ref :=
  match p with
  | Train => train_metrics self
  | Validation => val_metrics self
  | Test => test_metrics self
  end.

Definition run_hook (k : Hook) : M unit :=
  match k with
  | TrainingStep b i => training_step b i;; ret tt
  | OnTrainEpochEnd => on_train_epoch_end
  | ValidationStep b i => validation_step b i
  | OnValidationEpochEnd => on_validation_epoch_end
  | TestStep b i => test_step b i
  | OnTestEpochEnd => on_test_epoch_end
  end.

(** A failure in a hook is fatal: the hooks after it do not run. *)
Fixpoint run (ks : list Hook) : M unit :=
  match ks with
  | [] => ret tt
  | k :: rest => run_hook k;; run rest
  end.

(** ** Reference functions used to state the properties *)

(** One metric fed a sequence of [(preds, target)] updates. *)
Fixpoint feed_metric (m : Metric) (ups : list (Tensor * Tensor)) : Res Metric :=
  match ups with
  | [] => Ok m
  | u :: rest =>
      res_bind (Metric_update m (fst u) (snd u))
               (fun m' => feed_metric m' rest)
  end.


(** The value [forward] returns, as a function of the adapter's fields. *)
Definition forward_value (self : AliseFSSeg) (batch : CDBInput) : Res Tensor :=
  res_bind (alise_forward (model self)
              (sits (year1 batch))
              (positions (year1 batch))
              (pad_mask (year1 batch))) (fun x =>
  res_bind (rearrange_BTCHW_BHWTC x) (fun x1 =>
  res_bind (call (decoder self) x1) rearrange_BHWF_BFHW)).

(** What one batch yields in a given world: prediction, loss, and the
    target slice. *)
Definition step_io (w : World) (b : CDBInput)
    (o : Tensor * Tensor * Tensor) : Prop :=
  fst (shared_step b w) = Ok (fst (fst o), snd (fst o)) /\
  first_slot (label b) = Ok (snd o).

(** The decoder maps a channels-last tensor with [D] features to one with
    [F] features, keeping the leading axes. *)
Definition decoder_maps (dec : Module_) (D F : nat) : Prop :=
  forall x B H W,
    shape x = [B; H; W; D] ->
    exists y, call dec x = Ok y /\ shape y = [B; H; W; F].

Definition entry_of (on_step on_epoch : option bool) (batch_size : option nat)
    (prog_bar : bool) (kv : string * Tensor) : LogEntry :=
  {| log_name := fst kv;
     log_value := snd kv;
     log_on_step := on_step;
     log_on_epoch := on_epoch;
     log_batch_size := batch_size;
     log_prog_bar := prog_bar |}.

Definition train_loss_entry (bs : nat) (loss : Tensor) : LogEntry :=
  entry_of (Some true) (Some true) (Some bs) true ("train_loss", loss).

Definition epoch_entry (bs : nat) (kv : string * Tensor) : LogEntry :=
  entry_of None (Some true) (Some bs) true kv.

Definition new_calls (w w' : World) : list Call :=
  skipn (length (calls w)) (calls w').

Definition count_computes (r : Ref) (cs : list Call) : nat :=
  length (List.filter (fun c => match c with
                            | CallCompute r1 => Nat.eqb r r1
                            | CallUpdate _ _ _ => false
                            end) cs).

(** The fields of the adapter that are fixed at construction. *)
Definition same_config (a a' : AliseFSSeg) : Prop :=
  model a' = model a /\ decoder a' = decoder a /\
  loss a' = loss a /\ bs a' = bs a /\
  train_metrics a' = train_metrics a /\
  val_metrics a' = val_metrics a /\
  test_metrics a' = test_metrics a.

(** [w'] differs from [w] in the store at most at reference [r]. *)
Definition touches_only (r : Ref) (w w' : World) : Prop :=
  same_config (this w) (this w') /\
  length (heap w') = length (heap w) /\
  forall r', r' <> r -> heap w' !! r' = heap w !! r'.

(** The three phase references are live and pairwise distinct. *)
Definition separated (w : World) : Prop :=
  train_metrics (this w) <> val_metrics (this w) /\
  train_metrics (this w) <> test_metrics (this w) /\
  val_metrics (this w) <> test_metrics (this w) /\
  train_metrics (this w) < length (heap w) /\
  val_metrics (this w) < length (heap w) /\
  test_metrics (this w) < length (heap w).

(** The step hook of a phase. *)
Definition step_hook (p : Phase) (batch : CDBInput) (batch_idx : Z) : Hook :=
  match p with
  | Train => TrainingStep batch batch_idx
  | Validation => ValidationStep batch batch_idx
  | Test => TestStep batch batch_idx
  end.

Definition move_to_host (d : list (string * Tensor)) : list (string * Tensor) :=
  map (fun kv => (fst kv, to_cpu (snd kv))) d.

(** One observed training step: the batch, its index, and what the shared
    step yields for it. *)
Record ObservedStep : Type := {
  os_batch : CDBInput;
  os_idx : Z;
  os_out : Tensor;
  os_loss : Tensor;
  os_target : Tensor
}.

Definition observed_in (w : World) (s : ObservedStep) : Prop :=
  step_io w (os_batch s) (os_out s, os_loss s, os_target s).

Definition training_hooks (steps : list ObservedStep) : list Hook :=
  map (fun s => TrainingStep (os_batch s) (os_idx s)) steps.

Definition updates_of (steps : list ObservedStep) : list (Tensor * Tensor) :=
  map (fun s => (os_out s, os_target s)) steps.

Definition losses_of (steps : list ObservedStep) : list Tensor :=
  map os_loss steps.

(** Every metric of [ms], fed exactly the updates [ups], becomes the
    metric of the same name in [ms']. *)
Definition fed (ms : list (string * Metric)) (ups : list (Tensor * Tensor))
    (ms' : list (string * Metric)) : Prop :=
  Forall2 (fun km km' => fst km' = fst km /\
                         feed_metric (snd km) ups = Ok (snd km')) ms ms'.


(** ** A small concrete instance *)

Module Demo.

Definition tsum (x : Tensor) : Z := fold_right Z.add 0%Z (data x).

Definition scalar (d : Device) (v : Z) : Tensor :=
  {| shape := []; data := [v]; device := d |}.

(** An identity model: the time series itself. *)
Definition alise : ALISE :=
  {| alise_forward := fun sits _ _ => Ok sits |}.

(** A two-feature head over [D] input features: per pixel, the sum of the
    features and the first feature. *)
Definition head (D : nat) : Module_ :=
  {| call := fun x =>
       match shape x with
       | [B; H; W; D'] =>
           if Nat.eqb D' D then
             Ok {| shape := [B; H; W; 2];
                   data :=
                     flat_map (fun p =>
                       [fold_right Z.add 0%Z
                          (map (fun j => nth (p * D + j) (data x) 0%Z) (seq 0 D));
                        nth (p * D) (data x) 0%Z])
                       (seq 0 (B * H * W));
                   device := device x |}
           else Raise (ExternalError "feature size")
       | _ => Raise (ExternalError "rank")
       end |}.

Definition l1 (out target : Tensor) : Res Tensor :=
  Ok (scalar (device out) (tsum out - tsum target)).

Definition train_config_base : TrainConfig :=
  {| cfg_loss := l1; cfg_bs := 2 |}.

(** A running sum of predictions minus targets. *)
Definition sum_metric : Metric :=
  {| metric_update := fun st preds target =>
       match st with
       | [acc] => Ok [scalar (device acc) (tsum acc + (tsum preds - tsum target))]
       | _ => Raise (ExternalError "state")
       end;
     metric_compute := fun st =>
       match st with
       | [acc] => acc
       | _ => scalar cpu 0
       end;
     metric_state := [scalar (cuda 0) 0] |}.

(** A count of the updates seen. *)
Definition count_metric : Metric :=
  {| metric_update := fun st _ _ =>
       match st with
       | [acc] => Ok [scalar (device acc) (tsum acc + 1)]
       | _ => Raise (ExternalError "state")
       end;
     metric_compute := fun st =>
       match st with
       | [acc] => acc
       | _ => scalar cpu 0
       end;
     metric_state := [scalar (cuda 0) 0] |}.

Definition collection : MetricCollection :=
  {| prefix := None;
     metrics_of := [("sum", sum_metric); ("count", count_metric)] |}.

Definition heap0 : Heap := [collection].

Definition train_config : FSSegTrainConfig :=
  {| train_base := train_config_base; metrics := 0 |}.

(** A batch with B=1, T=2, C=2, H=1, W=2 and a label with two slots. *)
Definition batch_of (k : Z) : CDBInput :=
  {| year1 :=
       {| sits := {| shape := [1; 2; 2; 1; 2];
                     data := map (Z.add k) [1; 2; 3; 4; 5; 6; 7; 8]%Z;
                     device := cuda 0 |};
          positions := {| shape := [1; 2]; data := [0; 1]%Z; device := cuda 0 |};
          pad_mask := {| shape := [1; 2]; data := [0; 0]%Z; device := cuda 0 |} |};
     label := {| shape := [1; 2; 1; 2];
                 data := [k; 1; 5; 5]%Z;
                 device := cuda 0 |} |}.

Definition world0 : World :=
  match AliseFSSeg_init alise (head 4) train_config heap0 with
  | Ok w => w
  | Raise _ =>
      {| this := {| loss := l1; bs := 0; model := alise; decoder := head 4;
                    train_metrics := 0; val_metrics := 0; test_metrics := 0;
                    save_test_metrics := None |};
         heap := []; sink := []; calls := [] |}
  end.

Definition observed (k : Z) (idx : Z) (out : list Z) (l : Z) : ObservedStep :=
  {| os_batch := batch_of k;
     os_idx := idx;
     os_out := {| shape := [1; 2; 1; 2]; data := out; device := cuda 0 |};
     os_loss := scalar (cuda 0) l;
     os_target := {| shape := [1; 1; 2]; data := [k; 1%Z]; device := cuda 0 |} |}.

Definition steps : list ObservedStep :=
  [observed 0 0 [16; 20; 1; 2]%Z 38; observed 10 1 [56; 60; 11; 12]%Z 128].

Definition fed_metrics : list (string * Metric) :=
  [("sum", with_state sum_metric [scalar (cuda 0) 166]);
   ("count", with_state count_metric [scalar (cuda 0) 2])].

End Demo.

(** ** The builder *)

Section Build.
Context {ALISEConfigBuild MLPDecoderConfig : Type}.

(** The two sub-builders, [build_alise] and the [MLPDecoder] constructor,
    are declared outside this file. *)
Variable build_alise : ALISEConfigBuild -> Res ALISE.
Variable MLPDecoder : MLPDecoderConfig -> Res Module_.

Definition build_alise_fs_seg (alise_build_config : ALISEConfigBuild)
    (decoder_config : MLPDecoderConfig) (train_config : FSSegTrainConfig)
    (h : Heap) : Res World :=
  res_bind (build_alise alise_build_config) (fun alise =>
  res_bind (MLPDecoder decoder_config) (fun mlp =>
  AliseFSSeg_init alise mlp train_config h)).

End Build.

(** ** Further reference functions *)

Definition epoch_end_hook (p : Phase) : Hook :=
  match p with
  | Train => OnTrainEpochEnd
  | Validation => OnValidationEpochEnd
  | Test => OnTestEpochEnd
  end.

Definition step_hooks (p : Phase) (steps : list ObservedStep) : list Hook :=
  map (fun s => step_hook p (os_batch s) (os_idx s)) steps.

Definition phase_prefix (p : Phase) : string :=
  match p with
  | Train => "train_"
  | Validation => "val_"
  | Test => "test_"
  end.

(** What a step of a phase writes to the sink when it succeeds. *)
Definition step_entries (p : Phase) (bs : nat) (l : Tensor) : list LogEntry :=
  match p with
  | Train => [train_loss_entry bs l]
  | Validation | Test => []
  end.

(** The mapping computed from metrics [ms'] under prefix [pfx]. *)
Definition computed_as (pfx : string) (ms' : list (string * Metric))
  : list (string * Tensor) :=
  map (fun km => (pfx +:+ fst km, Metric_compute (snd km))) ms'.

(** What an epoch end of a phase logs, given the computed mapping. *)
Definition epoch_entries (p : Phase) (bs : nat) (d : list (string * Tensor))
  : list LogEntry :=
  match p with
  | Train | Validation => map (epoch_entry bs) d
  | Test => map (epoch_entry bs) (move_to_host d)
  end.

(** Every phase reference names a collection carrying the phase's prefix
    and the metric names [names]. *)
Definition phase_collections_named (names : list string) (w : World) : Prop :=
  forall p, exists mcp,
    heap w !! phase_metrics p (this w) = Some mcp /\
    prefix mcp = Some (phase_prefix p) /\
    map fst (metrics_of mcp) = names.

(** * Properties *)

(** ** Rearrangement: shapes, sizes and elements *)

Section FlatMap.
Context {A B : Type}.

Lemma length_flat_map_const (f : A -> list B) (k : nat) (l : list A) :
  (forall a, length (f a) = k) ->
  length (flat_map f l) = length l * k.
Proof.
  intros Hk. induction l as [|a l IH]; simpl; [reflexivity|].
  rewrite length_app, IH, Hk. reflexivity.
Qed.

Lemma nth_flat_map_const (f : A -> list B) (k : nat) (l : list A)
      (d : B) (a0 : A) :
  (forall a, length (f a) = k) ->
  forall i j, i < length l -> j < k ->
    nth (i * k + j) (flat_map f l) d = nth j (f (nth i l a0)) d.
Proof.
  intros Hk. induction l as [|a l IH]; intros i j Hi Hj; simpl in Hi.
  - lia.
  - destruct i as [|i]; simpl.
    + rewrite app_nth1 by (rewrite Hk; lia). reflexivity.
    + rewrite app_nth2 by (rewrite Hk; lia).
      rewrite Hk.
      replace (k + i * k + j - k) with (i * k + j) by lia.
      apply IH; lia.
Qed.
End FlatMap.

Lemma nth_flat_map_seq {B : Type} (g : nat -> list B) (k n : nat) (d : B) :
  (forall i, length (g i) = k) ->
  forall i j, i < n -> j < k ->
    nth (i * k + j) (flat_map g (seq 0 n)) d = nth j (g i) d.
Proof.
  intros Hk i j Hi Hj.
  rewrite (nth_flat_map_const g k (seq 0 n) d 0 Hk) by (rewrite ?length_seq; lia).
  rewrite seq_nth by lia. reflexivity.
Qed.

Lemma length_flat_map_seq {B : Type} (g : nat -> list B) (k n : nat) :
  (forall i, length (g i) = k) ->
  length (flat_map g (seq 0 n)) = n * k.
Proof.
  intros Hk. rewrite (length_flat_map_const g k) by exact Hk.
  rewrite length_seq. reflexivity.
Qed.

Lemma nth_map_seq {B : Type} (g : nat -> B) (n : nat) (d : B) (j : nat) :
  j < n -> nth j (map g (seq 0 n)) d = g j.
Proof.
  intros Hj. rewrite (nth_indep _ d (g 0)) by (rewrite length_map, length_seq; lia).
  rewrite map_nth, seq_nth by lia. reflexivity.
Qed.

Lemma index_bound (i n j k : nat) : i < n -> j < k -> i * k + j < n * k.
Proof. intros Hi Hj. nia. Qed.

Lemma rearrange_BTCHW_BHWTC_shape (x : Tensor) (B T C H W : nat) :
  shape x = [B; T; C; H; W] ->
  exists y, rearrange_BTCHW_BHWTC x = Ok y /\
            shape y = [B; H; W; T * C] /\
            device y = device x /\
            well_formed y.
Proof.
  intros Hs. unfold rearrange_BTCHW_BHWTC. rewrite Hs.
  eexists. split; [reflexivity|]. split; [reflexivity|]. split; [reflexivity|].
  unfold well_formed; simpl.
  rewrite (length_flat_map_seq _ (H * (W * (T * C)))); [lia|]. intros b.
  rewrite (length_flat_map_seq _ (W * (T * C))); [lia|]. intros h.
  rewrite (length_flat_map_seq _ (T * C)); [lia|]. intros w.
  rewrite (length_flat_map_seq _ C); [lia|]. intros t.
  rewrite length_map, length_seq. reflexivity.
Qed.

Lemma rearrange_BTCHW_BHWTC_get (x y : Tensor) (B T C H W : nat) :
  shape x = [B; T; C; H; W] ->
  rearrange_BTCHW_BHWTC x = Ok y ->
  forall b t c h w, b < B -> t < T -> c < C -> h < H -> w < W ->
    get y [b; h; w; t * C + c] = get x [b; t; c; h; w].
Proof.
  intros Hs Hy b t c h w Hb Ht Hc Hh Hw.
  unfold rearrange_BTCHW_BHWTC in Hy. rewrite Hs in Hy.
  injection Hy as <-. unfold get. rewrite Hs. simpl.
  assert (A1 : t * C + c < T * C) by (apply index_bound; lia).
  assert (A2 : w * (T * C) + (t * C + c) < W * (T * C))
    by (apply index_bound; lia).
  assert (A3 : h * (W * (T * C)) + (w * (T * C) + (t * C + c)) < H * (W * (T * C)))
    by (apply index_bound; lia).
  replace (((b * H + h) * W + w) * (T * C) + (t * C + c))
    with (b * (H * (W * (T * C))) + (h * (W * (T * C)) + (w * (T * C) + (t * C + c))))
    by lia.
  assert (L4 : forall w0 h0 b0 t0, length (map (fun c0 =>
             nth ((((b0 * T + t0) * C + c0) * H + h0) * W + w0) (data x) 0%Z)
             (seq 0 C)) = C)
    by (intros; rewrite length_map, length_seq; reflexivity).
  assert (L3 : forall h0 b0 w0, length (flat_map (fun t0 => map (fun c0 =>
             nth ((((b0 * T + t0) * C + c0) * H + h0) * W + w0) (data x) 0%Z)
             (seq 0 C)) (seq 0 T)) = T * C)
    by (intros; apply length_flat_map_seq; intros; apply L4).
  assert (L2 : forall b0 h0, length (flat_map (fun w0 => flat_map (fun t0 => map (fun c0 =>
             nth ((((b0 * T + t0) * C + c0) * H + h0) * W + w0) (data x) 0%Z)
             (seq 0 C)) (seq 0 T)) (seq 0 W)) = W * (T * C))
    by (intros; apply length_flat_map_seq; intros; apply L3).
  rewrite nth_flat_map_seq; [| intros; apply length_flat_map_seq; intros; apply L2 | lia | exact A3].
  rewrite nth_flat_map_seq; [| intros; apply L2 | lia | exact A2].
  rewrite nth_flat_map_seq; [| intros; apply L3 | lia | exact A1].
  rewrite nth_flat_map_seq; [| intros; apply L4 | lia | lia].
  rewrite nth_map_seq by lia. reflexivity.
Qed.

Lemma rearrange_BHWF_BFHW_shape (x : Tensor) (B H W F : nat) :
  shape x = [B; H; W; F] ->
  exists y, rearrange_BHWF_BFHW x = Ok y /\
            shape y = [B; F; H; W] /\
            device y = device x /\
            well_formed y.
Proof.
  intros Hs. unfold rearrange_BHWF_BFHW. rewrite Hs.
  eexists. split; [reflexivity|]. split; [reflexivity|]. split; [reflexivity|].
  unfold well_formed; simpl.
  rewrite (length_flat_map_seq _ (F * (H * W))); [lia|]. intros b.
  rewrite (length_flat_map_seq _ (H * W)); [lia|]. intros f.
  rewrite (length_flat_map_seq _ W); [lia|]. intros h.
  rewrite length_map, length_seq. reflexivity.
Qed.

Lemma rearrange_BHWF_BFHW_get (x y : Tensor) (B H W F : nat) :
  shape x = [B; H; W; F] ->
  rearrange_BHWF_BFHW x = Ok y ->
  forall b f h w, b < B -> f < F -> h < H -> w < W ->
    get y [b; f; h; w] = get x [b; h; w; f].
Proof.
  intros Hs Hy b f h w Hb Hf Hh Hw.
  unfold rearrange_BHWF_BFHW in Hy. rewrite Hs in Hy.
  injection Hy as <-. unfold get. rewrite Hs. simpl.
  replace (((b * F + f) * H + h) * W + w)
    with (b * (F * (H * W)) + (f * (H * W) + (h * W + w))) by lia.
  assert (A1 : h * W + w < H * W) by (apply index_bound; lia).
  assert (A2 : f * (H * W) + (h * W + w) < F * (H * W))
    by (apply index_bound; lia).
  assert (L3 : forall b0 f0 h0, length (map (fun w0 =>
             nth (((b0 * H + h0) * W + w0) * F + f0) (data x) 0%Z) (seq 0 W)) = W)
    by (intros; rewrite length_map, length_seq; reflexivity).
  assert (L2 : forall b0 f0, length (flat_map (fun h0 => map (fun w0 =>
             nth (((b0 * H + h0) * W + w0) * F + f0) (data x) 0%Z) (seq 0 W))
             (seq 0 H)) = H * W)
    by (intros; apply length_flat_map_seq; intros; apply L3).
  rewrite nth_flat_map_seq; [| intros; apply length_flat_map_seq; intros; apply L2 | lia | exact A2].
  rewrite nth_flat_map_seq; [| intros; apply L2 | lia | exact A1].
  rewrite nth_flat_map_seq; [| intros; apply L3 | lia | lia].
  rewrite nth_map_seq by lia. reflexivity.
Qed.

Lemma first_slot_shape (x y : Tensor) :
  first_slot x = Ok y ->
  exists B T rest, shape x = B :: S T :: rest /\ shape y = B :: rest.
Proof.
  unfold first_slot. intros Hy.
  destruct (shape x) as [|B [|[|T] rest]]; try discriminate.
  injection Hy as <-. exists B, T, rest. split; reflexivity.
Qed.

Lemma first_slot_not_whole (x y : Tensor) :
  first_slot x = Ok y -> y <> x.
Proof.
  intros Hy Heq. apply first_slot_shape in Hy as (B & T & rest & Hx & Hys).
  subst y. rewrite Hx in Hys.
  apply (f_equal (@length nat)) in Hys. simpl in Hys. lia.
Qed.

(** ** Running the monad *)

Lemma bind_run {A B} (m : M A) (k : A -> M B) (w : World) :
  (m ≫= k) w =
  match m w with
  | (Ok a, w') => k a w'
  | (Raise e, w') => (Raise e, w')
  end.
Proof. reflexivity. Qed.

Lemma bind_ok {A B} (m : M A) (k : A -> M B) (w w' : World) (a : A) :
  m w = (Ok a, w') -> (m ≫= k) w = k a w'.
Proof. intros E. rewrite bind_run, E. reflexivity. Qed.

Lemma bind_raise {A B} (m : M A) (k : A -> M B) (w w' : World) (e : Exn) :
  m w = (Raise e, w') -> (m ≫= k) w = (Raise e, w').
Proof. intros E. rewrite bind_run, E. reflexivity. Qed.

Lemma lift_run {A} (r : Res A) (w : World) : lift r w = (r, w).
Proof. reflexivity. Qed.

Lemma get_self_run (w : World) : get_self w = (Ok (this w), w).
Proof. reflexivity. Qed.

Lemma forward_run (batch : CDBInput) (w : World) :
  forward batch w = (forward_value (this w) batch, w).
Proof.
  unfold forward, forward_value.
  rewrite (bind_ok _ _ _ _ _ (get_self_run w)).
  rewrite bind_run, lift_run.
  destruct (alise_forward _ _ _ _) as [x|e]; simpl; [|reflexivity].
  rewrite bind_run, lift_run.
  destruct (rearrange_BTCHW_BHWTC x) as [x1|e]; simpl; [|reflexivity].
  rewrite bind_run, lift_run.
  destruct (call _ x1) as [x2|e]; simpl; reflexivity.
Qed.

Lemma shared_step_run (batch : CDBInput) (w : World) :
  shared_step batch w =
  (res_bind (forward_value (this w) batch) (fun out =>
   res_bind (first_slot (label batch)) (fun target =>
   res_bind (loss (this w) out target) (fun l => Ok (out, l)))), w).
Proof.
  unfold shared_step.
  rewrite bind_run, forward_run.
  destruct (forward_value _ _) as [out|e]; simpl; [|reflexivity].
  rewrite (bind_ok _ _ _ _ _ (get_self_run w)).
  rewrite bind_run, lift_run.
  destruct (first_slot _) as [target|e]; simpl; [|reflexivity].
  rewrite bind_run, lift_run.
  destruct (loss _ _ _) as [l|e]; simpl; reflexivity.
Qed.

Lemma shared_step_ok_inv (batch : CDBInput) (w : World) (out l : Tensor) :
  fst (shared_step batch w) = Ok (out, l) ->
  forward_value (this w) batch = Ok out /\
  exists target, first_slot (label batch) = Ok target /\
                 loss (this w) out target = Ok l.
Proof.
  rewrite shared_step_run. simpl.
  destruct (forward_value _ _) as [o|e]; simpl; [|discriminate].
  destruct (first_slot _) as [t|e]; simpl; [|discriminate].
  destruct (loss _ o t) as [l0|e] eqn:El; simpl; [|discriminate].
  intros [= -> ->]. split; [reflexivity|]. exists t. split; [reflexivity|exact El].
Qed.

(** ** The forward pass *)

Lemma head_maps (D : nat) : decoder_maps (Demo.head D) D 2.
Proof.
  intros x B H W Hs. simpl. rewrite Hs, Nat.eqb_refl.
  eexists. split; reflexivity.
Qed.

(** C1: when the owned model, called with the batch's [year1] time series,
    positions and padding mask, returns a tensor of shape (B,T,C,H,W) and
    the decoder maps T*C features to F features, [forward] rearranges the
    model output to (B,H,W,T*C) with element (b,h,w,t*C+c) taken from
    (b,t,c,h,w), applies the decoder, rearranges the decoder's (B,H,W,F)
    output to (B,F,H,W) with element (b,f,h,w) taken from (b,h,w,f), and
    returns that tensor, leaving the world as it was. *)
Theorem forward_shape (w : World) (batch : CDBInput) (x : Tensor)
    (B T C H W F : nat) :
  alise_forward (model (this w))
    (sits (year1 batch)) (positions (year1 batch)) (pad_mask (year1 batch))
    = Ok x ->
  shape x = [B; T; C; H; W] ->
  decoder_maps (decoder (this w)) (T * C) F ->
  exists x1 x2 y,
    rearrange_BTCHW_BHWTC x = Ok x1 /\
    shape x1 = [B; H; W; T * C] /\
    (forall b t c h v, b < B -> t < T -> c < C -> h < H -> v < W ->
       get x1 [b; h; v; t * C + c] = get x [b; t; c; h; v]) /\
    call (decoder (this w)) x1 = Ok x2 /\
    shape x2 = [B; H; W; F] /\
    rearrange_BHWF_BFHW x2 = Ok y /\
    shape y = [B; F; H; W] /\
    (forall b f h v, b < B -> f < F -> h < H -> v < W ->
       get y [b; f; h; v] = get x2 [b; h; v; f]) /\
    forward batch w = (Ok y, w).
Proof.
  intros Hm Hs Hdec.
  destruct (rearrange_BTCHW_BHWTC_shape x B T C H W Hs) as (x1 & E1 & S1 & _ & _).
  destruct (Hdec x1 B H W S1) as (x2 & E2 & S2).
  destruct (rearrange_BHWF_BFHW_shape x2 B H W F S2) as (y & E3 & S3 & _ & _).
  exists x1, x2, y.
  repeat split; try assumption.
  - intros. eapply rearrange_BTCHW_BHWTC_get; eauto.
  - intros. eapply rearrange_BHWF_BFHW_get; eauto.
  - rewrite forward_run. unfold forward_value.
    rewrite Hm; simpl. rewrite E1; simpl. rewrite E2; simpl. rewrite E3.
    reflexivity.
Qed.

Lemma forward_shape_witness :
  exists y,
    forward (Demo.batch_of 0) Demo.world0 = (Ok y, Demo.world0) /\
    shape y = [1; 2; 1; 2] /\
    data y = [16; 20; 1; 2]%Z.
Proof.
  destruct (forward_shape Demo.world0 (Demo.batch_of 0)
              (sits (year1 (Demo.batch_of 0))) 1 2 2 1 2 2
              eq_refl eq_refl (head_maps 4))
    as (x1 & x2 & y & E1 & _ & _ & E2 & _ & E3 & S3 & _ & Ef).
  exists y. split; [exact Ef|]. split; [exact S3|].
  vm_compute in E1. injection E1 as <-.
  vm_compute in E2. injection E2 as <-.
  vm_compute in E3. injection E3 as <-.
  reflexivity.
Defined.

(** ** The shared step *)

(** C2: [shared_step] runs the forward pass, computes the loss of its
    output against the first temporal slot of the label, and returns the
    pair (prediction, loss); a failure of any of the three is passed on;
    in every case the world is left as it was. *)
Theorem shared_step_spec (batch : CDBInput) (w : World) :
  snd (shared_step batch w) = w /\
  fst (shared_step batch w) =
    res_bind (fst (forward batch w)) (fun out =>
    res_bind (first_slot (label batch)) (fun target =>
    res_bind (loss (this w) out target) (fun l => Ok (out, l)))).
Proof.
  rewrite shared_step_run, forward_run. split; reflexivity.
Qed.

(** ** Primitive calls *)

Lemma shared_step_ok (batch : CDBInput) (w : World) (out l : Tensor) :
  fst (shared_step batch w) = Ok (out, l) ->
  shared_step batch w = (Ok (out, l), w).
Proof.
  intros E. rewrite shared_step_run in *. simpl in E. rewrite E. reflexivity.
Qed.

Lemma update_call_run (r : Ref) (preds target : Tensor) (w : World)
    (mc : MetricCollection) :
  heap w !! r = Some mc ->
  update_call r preds target w =
  (fst (MetricCollection_update mc preds target),
   with_heap w (<[r := snd (MetricCollection_update mc preds target)]> (heap w))
             (CallUpdate r preds target)).
Proof. intros E. unfold update_call. rewrite E. reflexivity. Qed.

Lemma compute_call_run (r : Ref) (w : World) (mc : MetricCollection) :
  heap w !! r = Some mc ->
  compute_call r w =
  (Ok (MetricCollection_compute mc), with_heap w (heap w) (CallCompute r)).
Proof. intros E. unfold compute_call. rewrite E. reflexivity. Qed.

Lemma log_items_run (d : list (string * Tensor)) (os oe : option bool)
    (b : option nat) (p : bool) (w : World) :
  log_items d os oe b p w =
  (Ok tt, {| this := this w;
             heap := heap w;
             sink := sink w ++ map (entry_of os oe b p) d;
             calls := calls w |}).
Proof.
  revert w. induction d as [|[k v] d IH]; intros w; simpl.
  - destruct w; simpl. rewrite app_nil_r. reflexivity.
  - rewrite bind_run. unfold log at 1. rewrite IH. simpl.
    rewrite <- app_assoc. reflexivity.
Qed.

Lemma shared_step_spec_witness :
  shared_step (Demo.batch_of 0) Demo.world0 =
  (Ok ({| shape := [1; 2; 1; 2]; data := [16; 20; 1; 2]%Z; device := cuda 0 |},
       {| shape := []; data := [38]%Z; device := cuda 0 |}),
   Demo.world0).
Proof.
  destruct (shared_step_spec (Demo.batch_of 0) Demo.world0) as (Hw & Hr).
  destruct (shared_step (Demo.batch_of 0) Demo.world0) as [r w'].
  simpl in Hw, Hr. subst w'. rewrite Hr. vm_compute. reflexivity.
Defined.

(** ** The training step *)

Lemma training_step_run (batch : CDBInput) (batch_idx : Z) (w : World)
    (out l target : Tensor) (mc mc' : MetricCollection) :
  fst (shared_step batch w) = Ok (out, l) ->
  first_slot (label batch) = Ok target ->
  heap w !! train_metrics (this w) = Some mc ->
  MetricCollection_update mc out target = (Ok tt, mc') ->
  training_step batch batch_idx w =
  (Ok l,
   {| this := this w;
      heap := <[train_metrics (this w) := mc']> (heap w);
      sink := sink w ++ [train_loss_entry (bs (this w)) l];
      calls := calls w ++ [CallUpdate (train_metrics (this w)) out target] |}).
Proof.
  intros Hs Ht Hh Hu. unfold training_step.
  rewrite (bind_ok _ _ _ _ _ (shared_step_ok _ _ _ _ Hs)). simpl.
  rewrite (bind_ok _ _ _ _ _ (get_self_run w)).
  rewrite bind_run, lift_run, Ht.
  rewrite bind_run, (update_call_run _ _ _ _ _ Hh), Hu. simpl.
  reflexivity.
Qed.

(** C3: when the shared step succeeds with (prediction, loss) and the
    train collection accepts the update, [training_step] updates the train
    collection with the prediction and the first label slot, appends to
    the sink one entry named [train_loss] whose value is that very loss,
    recorded per step and per epoch, with the configured batch size and
    shown in the progress bar, changes nothing else, and returns the
    loss. *)
Theorem training_step_spec (batch : CDBInput) (batch_idx : Z) (w : World)
    (out l target : Tensor) (mc mc' : MetricCollection) :
  fst (shared_step batch w) = Ok (out, l) ->
  first_slot (label batch) = Ok target ->
  heap w !! train_metrics (this w) = Some mc ->
  MetricCollection_update mc out target = (Ok tt, mc') ->
  training_step batch batch_idx w =
  (Ok l,
   {| this := this w;
      heap := <[train_metrics (this w) := mc']> (heap w);
      sink := sink w ++ [{| log_name := "train_loss";
                            log_value := l;
                            log_on_step := Some true;
                            log_on_epoch := Some true;
                            log_batch_size := Some (bs (this w));
                            log_prog_bar := true |}];
      calls := calls w ++ [CallUpdate (train_metrics (this w)) out target] |}).
Proof.
  intros Hs Ht Hh Hu.
  apply (training_step_run batch batch_idx w out l target mc mc' Hs Ht Hh Hu).
Qed.

Lemma training_step_spec_witness :
  exists l w',
    training_step (Demo.batch_of 0) 0 Demo.world0 = (Ok l, w') /\
    data l = [38%Z] /\
    map log_name (sink w') = ["train_loss"] /\
    map log_value (sink w') = [l].
Proof.
  eexists. eexists. split.
  - apply (training_step_spec (Demo.batch_of 0) 0 Demo.world0
             {| shape := [1; 2; 1; 2]; data := [16; 20; 1; 2]%Z; device := cuda 0 |}
             {| shape := []; data := [38]%Z; device := cuda 0 |}
             {| shape := [1; 1; 2]; data := [0; 1]%Z; device := cuda 0 |}
             (MetricCollection_clone Demo.collection "train_")
             (snd (MetricCollection_update
                     (MetricCollection_clone Demo.collection "train_")
                     {| shape := [1; 2; 1; 2]; data := [16; 20; 1; 2]%Z; device := cuda 0 |}
                     {| shape := [1; 1; 2]; data := [0; 1]%Z; device := cuda 0 |}))).
    + vm_compute. reflexivity.
    + vm_compute. reflexivity.
    + vm_compute. reflexivity.
    + vm_compute. reflexivity.
  - simpl. split; [reflexivity|]. split; reflexivity.
Defined.

(** ** What a hook may touch *)

Ltac exec :=
  repeat first
    [ rewrite bind_run
    | rewrite shared_step_run
    | rewrite get_self_run
    | rewrite lift_run
    | rewrite log_items_run
    | progress simpl
    | match goal with
      | |- context [match ?x with _ => _ end] =>
          lazymatch x with
          | context [match _ with _ => _ end] => fail
          | _ => destruct x eqn:?
          end
      end ].

Ltac unfold_hooks :=
  unfold run_hook, training_step, on_train_epoch_end, validation_step,
    on_validation_epoch_end, test_step, on_test_epoch_end, log_dict,
    update_call, compute_call, log, set_save_test_metrics, with_heap.

Lemma same_config_refl (a : AliseFSSeg) : same_config a a.
Proof. repeat split. Qed.

Lemma touches_only_refl (r : Ref) (w : World) : touches_only r w w.
Proof. split; [apply same_config_refl|]. split; [reflexivity|]. intros; reflexivity. Qed.

Lemma touches_only_insert (r : Ref) (w : World) (a : AliseFSSeg)
    (mc : MetricCollection) (s : list LogEntry) (c : list Call) :
  same_config (this w) a ->
  touches_only r w {| this := a; heap := <[r := mc]> (heap w); sink := s; calls := c |}.
Proof.
  intros Ha. split; [exact Ha|]. simpl. split; [apply length_insert|].
  intros r' Hne. apply list_lookup_insert_ne. congruence.
Qed.

Lemma touches_only_same_heap (r : Ref) (w : World) (a : AliseFSSeg)
    (s : list LogEntry) (c : list Call) :
  same_config (this w) a ->
  touches_only r w {| this := a; heap := heap w; sink := s; calls := c |}.
Proof.
  intros Ha. split; [exact Ha|]. simpl. split; [reflexivity|]. intros; reflexivity.
Qed.

Create HintDb frame.
#[local] Hint Resolve same_config_refl touches_only_refl touches_only_insert
  touches_only_same_heap : frame.

Lemma run_hook_touches (k : Hook) (w : World) :
  touches_only (phase_metrics (phase_of k) (this w)) w (snd (run_hook k w)).
Proof.
  destruct k; unfold_hooks; exec; auto with frame.
  apply touches_only_same_heap. repeat split.
Qed.

Lemma run_hook_save (k : Hook) (w : World) :
  k <> OnTestEpochEnd ->
  save_test_metrics (this (snd (run_hook k w))) = save_test_metrics (this w).
Proof.
  intros Hk. destruct k; try congruence; unfold_hooks; exec; reflexivity.
Qed.

Lemma run_hook_separated (k : Hook) (w : World) :
  separated w -> separated (snd (run_hook k w)).
Proof.
  intros Hs.
  destruct (run_hook_touches k w) as ((_ & _ & _ & _ & Et & Ev & Ee) & El & _).
  unfold separated in *. rewrite Et, Ev, Ee, El. exact Hs.
Qed.

Lemma run_cons (k : Hook) (ks : list Hook) (w : World) :
  run (k :: ks) w =
  match run_hook k w with
  | (Ok _, w') => run ks w'
  | (Raise e, w') => (Raise e, w')
  end.
Proof. simpl. rewrite bind_run. reflexivity. Qed.

Lemma run_separated (ks : list Hook) (w : World) :
  separated w -> separated (snd (run ks w)).
Proof.
  revert w. induction ks as [|k ks IH]; intros w Hs; [exact Hs|].
  rewrite run_cons. pose proof (run_hook_separated k w Hs) as Hk.
  destruct (run_hook k w) as [[[]|e] w']; simpl in *; auto.
Qed.

Lemma run_same_config (ks : list Hook) (w : World) :
  same_config (this w) (this (snd (run ks w))).
Proof.
  revert w. induction ks as [|k ks IH]; intros w; [apply same_config_refl|].
  rewrite run_cons.
  destruct (run_hook_touches k w) as (Hc & _).
  destruct (run_hook k w) as [[[]|e] w']; simpl in *; [|exact Hc].
  specialize (IH w'). unfold same_config in *. intuition congruence.
Qed.

(** Hooks of other phases leave a phase's collection object as it is. *)
Lemma run_other_phases (p : Phase) (ks : list Hook) (w : World) :
  separated w ->
  Forall (fun k => phase_of k <> p) ks ->
  heap (snd (run ks w)) !! phase_metrics p (this (snd (run ks w))) =
  heap w !! phase_metrics p (this w).
Proof.
  revert w. induction ks as [|k ks IH]; intros w Hs Hks; [reflexivity|].
  inversion Hks as [|k' ks' Hk Hks']; subst.
  rewrite run_cons.
  pose proof (run_hook_separated k w Hs) as Hs'.
  destruct (run_hook_touches k w) as (Hc & _ & Hh).
  assert (Hp : phase_metrics p (this (snd (run_hook k w))) =
               phase_metrics p (this w)).
  { destruct Hc as (_ & _ & _ & _ & Et & Ev & Ee). destruct p; simpl; assumption. }
  assert (Hne : phase_metrics p (this w) <> phase_metrics (phase_of k) (this w)).
  { destruct Hs as (H1 & H2 & H3 & _).
    destruct p, (phase_of k); simpl; congruence. }
  specialize (Hh _ Hne).
  destruct (run_hook k w) as [[[]|e] w']; simpl in *.
  - rewrite IH by assumption. rewrite Hp. exact Hh.
  - rewrite Hp. exact Hh.
Qed.


(** ** Construction *)

Lemma AliseFSSeg_init_ok (alise : ALISE) (dec : Module_)
    (cfg : FSSegTrainConfig) (h0 : Heap) (mc : MetricCollection) :
  h0 !! metrics cfg = Some mc ->
  AliseFSSeg_init alise dec cfg h0 =
  Ok {| this := {| loss := cfg_loss (train_base cfg);
                   bs := cfg_bs (train_base cfg);
                   model := alise;
                   decoder := dec;
                   train_metrics := length h0;
                   val_metrics := S (length h0);
                   test_metrics := S (S (length h0));
                   save_test_metrics := None |};
        heap := h0 ++ [MetricCollection_clone mc "train_";
                       MetricCollection_clone mc "val_";
                       MetricCollection_clone mc "test_"];
        sink := [];
        calls := [] |}.
Proof.
  intros Hm. unfold AliseFSSeg_init, heap_clone, alloc.
  rewrite Hm. simpl.
  rewrite (lookup_app_l_Some _ _ _ _ Hm). simpl.
  rewrite (lookup_app_l_Some _ _ _ _ (lookup_app_l_Some _ _ _ _ Hm)). simpl.
  rewrite !length_app. simpl.
  rewrite <- !app_assoc. simpl.
  replace (length h0 + 1) with (S (length h0)) by lia.
  replace (S (length h0) + 1) with (S (S (length h0))) by lia.
  reflexivity.
Qed.

Lemma AliseFSSeg_init_inv (alise : ALISE) (dec : Module_)
    (cfg : FSSegTrainConfig) (h0 : Heap) (w0 : World) :
  AliseFSSeg_init alise dec cfg h0 = Ok w0 ->
  exists mc, h0 !! metrics cfg = Some mc.
Proof.
  unfold AliseFSSeg_init, heap_clone. destruct (h0 !! metrics cfg) as [mc|].
  - intros _. exists mc. reflexivity.
  - simpl. discriminate.
Qed.

Lemma lookup_tail3 {A} (l : list A) (a b c : A) :
  (l ++ [a; b; c]) !! length l = Some a /\
  (l ++ [a; b; c]) !! S (length l) = Some b /\
  (l ++ [a; b; c]) !! S (S (length l)) = Some c.
Proof.
  repeat split.
  - rewrite lookup_app_r by lia. rewrite Nat.sub_diag. reflexivity.
  - rewrite lookup_app_r by lia.
    replace (S (length l) - length l) with 1 by lia. reflexivity.
  - rewrite lookup_app_r by lia.
    replace (S (S (length l)) - length l) with 2 by lia. reflexivity.
Qed.

(** ** Independence of the three phase collections *)

(** C4: constructing the adapter over a store that holds the configured
    collection succeeds; the train, validation and test references then
    name three new, pairwise distinct objects, none of them the configured
    collection (which is left as it was), each a copy of it carrying its
    phase name as prefix; and after any sequence of hook invocations,
    running further hooks that all belong to other phases leaves a phase's
    collection object, hence the result of computing it, unchanged. *)
Theorem phase_metrics_independent (alise : ALISE) (dec : Module_)
    (cfg : FSSegTrainConfig) (h0 : Heap) (mc : MetricCollection) :
  h0 !! metrics cfg = Some mc ->
  exists w0,
    AliseFSSeg_init alise dec cfg h0 = Ok w0 /\
    heap w0 !! train_metrics (this w0) = Some (MetricCollection_clone mc "train_") /\
    heap w0 !! val_metrics (this w0) = Some (MetricCollection_clone mc "val_") /\
    heap w0 !! test_metrics (this w0) = Some (MetricCollection_clone mc "test_") /\
    prefix (MetricCollection_clone mc "train_") = Some "train_" /\
    prefix (MetricCollection_clone mc "val_") = Some "val_" /\
    prefix (MetricCollection_clone mc "test_") = Some "test_" /\
    heap w0 !! metrics cfg = Some mc /\
    (forall p, phase_metrics p (this w0) <> metrics cfg) /\
    separated w0 /\
    forall (p : Phase) (ks ks' : list Hook),
      Forall (fun k => phase_of k <> p) ks' ->
      let w := snd (run ks w0) in
      let w' := snd (run ks' w) in
      heap w' !! phase_metrics p (this w') = heap w !! phase_metrics p (this w) /\
      fst (compute_call (phase_metrics p (this w')) w') =
      fst (compute_call (phase_metrics p (this w)) w).
Proof.
  intros Hm. eexists. split; [apply (AliseFSSeg_init_ok _ _ _ _ _ Hm)|].
  simpl.
  destruct (lookup_tail3 h0 (MetricCollection_clone mc "train_")
              (MetricCollection_clone mc "val_")
              (MetricCollection_clone mc "test_")) as (E1 & E2 & E3).
  pose proof (lookup_lt_Some _ _ _ Hm) as Hlt.
  assert (Hsep : separated
    {| this := {| loss := cfg_loss (train_base cfg);
                  bs := cfg_bs (train_base cfg);
                  model := alise;
                  decoder := dec;
                  train_metrics := length h0;
                  val_metrics := S (length h0);
                  test_metrics := S (S (length h0));
                  save_test_metrics := None |};
       heap := h0 ++ [MetricCollection_clone mc "train_";
                      MetricCollection_clone mc "val_";
                      MetricCollection_clone mc "test_"];
       sink := [];
       calls := [] |}).
  { unfold separated; simpl. rewrite length_app; simpl. lia. }
  repeat match goal with |- _ /\ _ => split end; try assumption; try reflexivity.
  - apply lookup_app_l_Some. exact Hm.
  - intros p. destruct p; simpl; lia.
  - intros p ks ks' Hks.
    match goal with |- context [run ks ?w0] => set (w := snd (run ks w0)) end.
    assert (Hw : separated w) by (apply run_separated; exact Hsep).
    pose proof (run_other_phases p ks' w Hw Hks) as E.
    simpl. split; [exact E|].
    unfold compute_call. rewrite E.
    destruct (heap w !! phase_metrics p (this w)); reflexivity.
Qed.

Lemma phase_metrics_independent_witness :
  exists w0,
    AliseFSSeg_init Demo.alise (Demo.head 4) Demo.train_config Demo.heap0 = Ok w0 /\
    let w := snd (run [ValidationStep (Demo.batch_of 1) 0] w0) in
    let w' := snd (run [TrainingStep (Demo.batch_of 2) 0; OnTrainEpochEnd;
                        TestStep (Demo.batch_of 3) 0; OnTestEpochEnd] w) in
    fst (compute_call (val_metrics (this w')) w') =
    fst (compute_call (val_metrics (this w)) w).
Proof.
  destruct (phase_metrics_independent Demo.alise (Demo.head 4)
              Demo.train_config Demo.heap0 Demo.collection eq_refl)
    as (w0 & E0 & _ & _ & _ & _ & _ & _ & _ & _ & _ & Hind).
  exists w0. split; [exact E0|].
  apply (Hind Validation [ValidationStep (Demo.batch_of 1) 0]
           [TrainingStep (Demo.batch_of 2) 0; OnTrainEpochEnd;
            TestStep (Demo.batch_of 3) 0; OnTestEpochEnd]).
  repeat constructor; simpl; discriminate.
Defined.

(** ** Epoch ends *)

Lemma new_calls_same (w : World) (a : AliseFSSeg) (h : Heap) (s : list LogEntry) :
  new_calls w {| this := a; heap := h; sink := s; calls := calls w |} = [].
Proof. unfold new_calls. simpl. apply drop_all. Qed.

Lemma new_calls_refl (w : World) : new_calls w w = [].
Proof. unfold new_calls. apply drop_all. Qed.

Lemma new_calls_app (w : World) (a : AliseFSSeg) (h : Heap) (s : list LogEntry)
    (cs : list Call) :
  new_calls w {| this := a; heap := h; sink := s; calls := calls w ++ cs |} = cs.
Proof. unfold new_calls. simpl. apply drop_app_length. Qed.

(** C5: with the three phase collections in the store, the train epoch
    end calls compute on the train collection explicitly and then hands the
    collection itself to [log_dict], where the aggregate is computed a
    second time: two computes in all, and one logged entry per computed
    item.  The validation and test epoch ends call compute exactly once and
    log the mapping they obtained (the test phase after moving its values to
    the host). *)
Theorem epoch_end_computes (w : World) (mt mv me : MetricCollection) :
  heap w !! train_metrics (this w) = Some mt ->
  heap w !! val_metrics (this w) = Some mv ->
  heap w !! test_metrics (this w) = Some me ->
  (exists w',
     on_train_epoch_end w = (Ok tt, w') /\
     new_calls w w' = [CallCompute (train_metrics (this w));
                       CallCompute (train_metrics (this w))] /\
     count_computes (train_metrics (this w)) (new_calls w w') = 2 /\
     sink w' = sink w ++
       map (epoch_entry (bs (this w))) (MetricCollection_compute mt)) /\
  (exists w',
     on_validation_epoch_end w = (Ok tt, w') /\
     new_calls w w' = [CallCompute (val_metrics (this w))] /\
     count_computes (val_metrics (this w)) (new_calls w w') = 1 /\
     sink w' = sink w ++
       map (epoch_entry (bs (this w))) (MetricCollection_compute mv)) /\
  (exists w',
     on_test_epoch_end w = (Ok tt, w') /\
     new_calls w w' = [CallCompute (test_metrics (this w))] /\
     count_computes (test_metrics (this w)) (new_calls w w') = 1 /\
     sink w' = sink w ++
       map (epoch_entry (bs (this w)))
           (move_to_host (MetricCollection_compute me))).
Proof.
  intros Ht Hv He. repeat split.
  - eexists. unfold_hooks. exec; simplify_eq.
    split; [reflexivity|]. rewrite <- app_assoc, new_calls_app.
    unfold count_computes. simpl. rewrite Nat.eqb_refl. repeat split.
  - eexists. unfold_hooks. exec; simplify_eq.
    split; [reflexivity|]. rewrite new_calls_app.
    unfold count_computes. simpl. rewrite Nat.eqb_refl. repeat split.
  - eexists. unfold_hooks. exec; simplify_eq.
    split; [reflexivity|]. rewrite new_calls_app.
    unfold count_computes. simpl. rewrite Nat.eqb_refl. repeat split.
Qed.

Lemma epoch_end_computes_witness :
  let w := snd (run [TrainingStep (Demo.batch_of 0) 0;
                     ValidationStep (Demo.batch_of 1) 0;
                     TestStep (Demo.batch_of 2) 0] Demo.world0) in
  count_computes 1 (new_calls w (snd (on_train_epoch_end w))) = 2 /\
  count_computes 2 (new_calls w (snd (on_validation_epoch_end w))) = 1 /\
  count_computes 3 (new_calls w (snd (on_test_epoch_end w))) = 1.
Proof.
  intros w.
  destruct (epoch_end_computes w
              (snd (MetricCollection_update
                      (MetricCollection_clone Demo.collection "train_")
                      {| shape := [1; 2; 1; 2]; data := [16; 20; 1; 2]%Z; device := cuda 0 |}
                      {| shape := [1; 1; 2]; data := [0; 1]%Z; device := cuda 0 |}))
              (snd (MetricCollection_update
                      (MetricCollection_clone Demo.collection "val_")
                      {| shape := [1; 2; 1; 2]; data := [20; 24; 2; 3]%Z; device := cuda 0 |}
                      {| shape := [1; 1; 2]; data := [1; 1]%Z; device := cuda 0 |}))
              (snd (MetricCollection_update
                      (MetricCollection_clone Demo.collection "test_")
                      {| shape := [1; 2; 1; 2]; data := [24; 28; 3; 4]%Z; device := cuda 0 |}
                      {| shape := [1; 1; 2]; data := [2; 1]%Z; device := cuda 0 |}))
              eq_refl eq_refl eq_refl)
    as ((w1 & E1 & _ & C1 & _) & (w2 & E2 & _ & C2 & _) & (w3 & E3 & _ & C3 & _)).
  rewrite E1, E2, E3. simpl. repeat split; assumption.
Defined.

(** C6: with the test collection in the store, [on_test_epoch_end]
    computes its aggregates, moves every value to the host, logs one entry
    per item of that mapping, and stores the mapping, whose every value is
    host-resident and has the shape and elements of the computed one, in
    [save_test_metrics]. *)
Theorem on_test_epoch_end_host (w : World) (me : MetricCollection) :
  heap w !! test_metrics (this w) = Some me ->
  exists w' outputs,
    on_test_epoch_end w = (Ok tt, w') /\
    outputs = move_to_host (MetricCollection_compute me) /\
    save_test_metrics (this w') = Some outputs /\
    Forall (fun kv => host_resident (snd kv)) outputs /\
    Forall2 (fun kv kv' => fst kv' = fst kv /\
                           shape (snd kv') = shape (snd kv) /\
                           data (snd kv') = data (snd kv))
            (MetricCollection_compute me) outputs /\
    sink w' = sink w ++ map (epoch_entry (bs (this w))) outputs /\
    heap w' = heap w.
Proof.
  intros He. eexists. eexists. unfold_hooks. exec; simplify_eq.
  split; [reflexivity|]. split; [reflexivity|]. split; [reflexivity|].
  split; [|split; [|split; reflexivity]].
  - unfold move_to_host. apply Forall_map. apply Forall_forall. intros; reflexivity.
  - unfold move_to_host. induction (MetricCollection_compute me) as [|kv d IH];
      simpl; constructor; auto.
Qed.

Lemma on_test_epoch_end_host_witness :
  let w := snd (run [TestStep (Demo.batch_of 2) 0] Demo.world0) in
  exists outputs,
    save_test_metrics (this (snd (on_test_epoch_end w))) = Some outputs /\
    map fst outputs = ["test_sum"; "test_count"] /\
    Forall (fun kv => host_resident (snd kv)) outputs.
Proof.
  intros w.
  destruct (on_test_epoch_end_host w
              (snd (MetricCollection_update
                      (MetricCollection_clone Demo.collection "test_")
                      {| shape := [1; 2; 1; 2]; data := [24; 28; 3; 4]%Z; device := cuda 0 |}
                      {| shape := [1; 1; 2]; data := [2; 1]%Z; device := cuda 0 |}))
              eq_refl)
    as (w' & outputs & E & Eo & Es & Hh & _).
  exists outputs. rewrite E. simpl. split; [exact Es|]. split; [|exact Hh].
  rewrite Eo. reflexivity.
Defined.

(** ** Step methods and their collections *)

Lemma step_hook_run (p : Phase) (batch : CDBInput) (batch_idx : Z) (w : World)
    (out l : Tensor) (mc : MetricCollection) :
  fst (shared_step batch w) = Ok (out, l) ->
  heap w !! phase_metrics p (this w) = Some mc ->
  exists target,
    first_slot (label batch) = Ok target /\
    loss (this w) out target = Ok l /\
    this (snd (run_hook (step_hook p batch batch_idx) w)) = this w /\
    heap (snd (run_hook (step_hook p batch batch_idx) w)) =
      <[phase_metrics p (this w) :=
          snd (MetricCollection_update mc out target)]> (heap w) /\
    calls (snd (run_hook (step_hook p batch batch_idx) w)) =
      calls w ++ [CallUpdate (phase_metrics p (this w)) out target].
Proof.
  intros Hs Hh.
  destruct (shared_step_ok_inv _ _ _ _ Hs) as (_ & target & Ht & Hl).
  exists target. split; [exact Ht|]. split; [exact Hl|].
  pose proof (shared_step_ok _ _ _ _ Hs) as Hrun.
  pose proof (update_call_run (phase_metrics p (this w)) out target w mc Hh) as Hup.
  set (res := MetricCollection_update mc out target) in *.
  destruct p; simpl in Hh, Hup; simpl step_hook; unfold run_hook.
  - unfold training_step.
    rewrite bind_run, bind_run, Hrun. simpl.
    rewrite bind_run, get_self_run, bind_run, lift_run, Ht.
    rewrite bind_run, Hup.
    destruct res as [[[]|e] mc']; unfold log; exec; repeat split.
  - unfold validation_step.
    rewrite bind_run, Hrun. simpl.
    rewrite bind_run, get_self_run, bind_run, lift_run, Ht.
    rewrite Hup. repeat split.
  - unfold test_step.
    rewrite bind_run, Hrun. simpl.
    rewrite bind_run, get_self_run, bind_run, lift_run, Ht.
    rewrite Hup. repeat split.
Qed.

Lemma step_hook_calls (p : Phase) (batch : CDBInput) (batch_idx : Z) (w : World) :
  new_calls w (snd (run_hook (step_hook p batch batch_idx) w)) = [] \/
  exists out target,
    new_calls w (snd (run_hook (step_hook p batch batch_idx) w)) =
      [CallUpdate (phase_metrics p (this w)) out target].
Proof.
  destruct p; simpl step_hook; unfold_hooks; exec;
    rewrite ?new_calls_refl, ?new_calls_same, ?new_calls_app; eauto.
Qed.

(** C8: [validation_step] and [test_step] never write to the logging
    sink and never change the adapter; in the store they change at most
    their own phase's collection, and the only call they can make on a
    collection is an update of their own.  When the shared step succeeds
    and the collection is in the store, that collection is updated with the
    prediction and the first label slot. *)
Theorem eval_steps_do_not_log (batch : CDBInput) (batch_idx : Z) (w : World) :
  (let w' := snd (validation_step batch batch_idx w) in
   sink w' = sink w /\
   this w' = this w /\
   (forall r, r <> val_metrics (this w) -> heap w' !! r = heap w !! r) /\
   (forall c, In c (new_calls w w') ->
      exists preds target, c = CallUpdate (val_metrics (this w)) preds target) /\
   (forall out l mc,
      fst (shared_step batch w) = Ok (out, l) ->
      heap w !! val_metrics (this w) = Some mc ->
      exists target,
        first_slot (label batch) = Ok target /\
        heap w' !! val_metrics (this w) =
          Some (snd (MetricCollection_update mc out target)))) /\
  (let w' := snd (test_step batch batch_idx w) in
   sink w' = sink w /\
   this w' = this w /\
   (forall r, r <> test_metrics (this w) -> heap w' !! r = heap w !! r) /\
   (forall c, In c (new_calls w w') ->
      exists preds target, c = CallUpdate (test_metrics (this w)) preds target) /\
   (forall out l mc,
      fst (shared_step batch w) = Ok (out, l) ->
      heap w !! test_metrics (this w) = Some mc ->
      exists target,
        first_slot (label batch) = Ok target /\
        heap w' !! test_metrics (this w) =
          Some (snd (MetricCollection_update mc out target)))).
Proof.
  split; cbv zeta.
  - split; [unfold_hooks; exec; reflexivity|].
    split; [unfold_hooks; exec; reflexivity|].
    split; [|split].
    + intros r Hr.
      destruct (run_hook_touches (ValidationStep batch batch_idx) w) as (_ & _ & Hh).
      apply Hh. exact Hr.
    + intros c Hc.
      destruct (step_hook_calls Validation batch batch_idx w) as [E|(o & t & E)];
        simpl in E; rewrite E in Hc; simpl in Hc; [contradiction|].
      destruct Hc as [<-|[]]. eauto.
    + intros out l mc Hs Hh.
      destruct (step_hook_run Validation batch batch_idx w out l mc Hs Hh)
        as (target & Ht & _ & _ & Eh & _).
      exists target. split; [exact Ht|]. simpl in Eh. rewrite Eh.
      apply list_lookup_insert_eq. eapply lookup_lt_Some. exact Hh.
  - split; [unfold_hooks; exec; reflexivity|].
    split; [unfold_hooks; exec; reflexivity|].
    split; [|split].
    + intros r Hr.
      destruct (run_hook_touches (TestStep batch batch_idx) w) as (_ & _ & Hh).
      apply Hh. exact Hr.
    + intros c Hc.
      destruct (step_hook_calls Test batch batch_idx w) as [E|(o & t & E)];
        simpl in E; rewrite E in Hc; simpl in Hc; [contradiction|].
      destruct Hc as [<-|[]]. eauto.
    + intros out l mc Hs Hh.
      destruct (step_hook_run Test batch batch_idx w out l mc Hs Hh)
        as (target & Ht & _ & _ & Eh & _).
      exists target. split; [exact Ht|]. simpl in Eh. rewrite Eh.
      apply list_lookup_insert_eq. eapply lookup_lt_Some. exact Hh.
Qed.

Lemma eval_steps_do_not_log_witness :
  sink (snd (validation_step (Demo.batch_of 1) 0 Demo.world0)) = [] /\
  sink (snd (test_step (Demo.batch_of 1) 0 Demo.world0)) = [] /\
  heap (snd (validation_step (Demo.batch_of 1) 0 Demo.world0)) !! 1 =
    heap Demo.world0 !! 1 /\
  exists target,
    first_slot (label (Demo.batch_of 1)) = Ok target /\
    heap (snd (test_step (Demo.batch_of 1) 0 Demo.world0)) !! 3 =
      Some (snd (MetricCollection_update
                   (MetricCollection_clone Demo.collection "test_")
                   {| shape := [1; 2; 1; 2]; data := [20; 24; 2; 3]%Z; device := cuda 0 |}
                   target)).
Proof.
  destruct (eval_steps_do_not_log (Demo.batch_of 1) 0 Demo.world0)
    as ((Sv & _ & Fv & _ & _) & (St & _ & _ & _ & Ut)).
  split; [exact Sv|]. split; [exact St|]. split.
  - apply (Fv 1). vm_compute. discriminate.
  - apply (Ut _ {| shape := []; data := [47]%Z; device := cuda 0 |}).
    + vm_compute. reflexivity.
    + vm_compute. reflexivity.
Defined.

(** C9: in the training, validation and test steps alike, once the
    shared step has succeeded and the phase's collection is in the store,
    the one call made on a collection is an update of that phase's
    collection with the prediction and the first temporal slot of the
    label; that slice is the very target the loss was computed against,
    and it is not the whole label tensor. *)
Theorem step_target_is_first_slot (p : Phase) (batch : CDBInput)
    (batch_idx : Z) (w : World) (out l : Tensor) (mc : MetricCollection) :
  fst (shared_step batch w) = Ok (out, l) ->
  heap w !! phase_metrics p (this w) = Some mc ->
  exists target,
    first_slot (label batch) = Ok target /\
    target <> label batch /\
    loss (this w) out target = Ok l /\
    new_calls w (snd (run_hook (step_hook p batch batch_idx) w)) =
      [CallUpdate (phase_metrics p (this w)) out target] /\
    heap (snd (run_hook (step_hook p batch batch_idx) w))
      !! phase_metrics p (this w) =
      Some (snd (MetricCollection_update mc out target)).
Proof.
  intros Hs Hh.
  destruct (step_hook_run p batch batch_idx w out l mc Hs Hh)
    as (target & Ht & Hl & _ & Eh & Ec).
  exists target. split; [exact Ht|].
  split; [apply first_slot_not_whole; exact Ht|].
  split; [exact Hl|]. split.
  - unfold new_calls. rewrite Ec. apply drop_app_length.
  - rewrite Eh. apply list_lookup_insert_eq. eapply lookup_lt_Some. exact Hh.
Qed.

Lemma step_target_is_first_slot_witness :
  let target := {| shape := [1; 1; 2]; data := [1; 1]%Z; device := cuda 0 |} in
  let out := {| shape := [1; 2; 1; 2]; data := [20; 24; 2; 3]%Z; device := cuda 0 |} in
  new_calls Demo.world0
    (snd (run_hook (TrainingStep (Demo.batch_of 1) 0) Demo.world0)) =
    [CallUpdate 1 out target] /\
  new_calls Demo.world0
    (snd (run_hook (ValidationStep (Demo.batch_of 1) 0) Demo.world0)) =
    [CallUpdate 2 out target] /\
  new_calls Demo.world0
    (snd (run_hook (TestStep (Demo.batch_of 1) 0) Demo.world0)) =
    [CallUpdate 3 out target].
Proof.
  intros target out.
  assert (Hs : fst (shared_step (Demo.batch_of 1) Demo.world0) =
               Ok (out, {| shape := []; data := [47]%Z; device := cuda 0 |}))
    by (vm_compute; reflexivity).
  split; [|split].
  - destruct (step_target_is_first_slot Train (Demo.batch_of 1) 0 Demo.world0
                _ _ (MetricCollection_clone Demo.collection "train_") Hs eq_refl)
      as (t & Et & _ & _ & Ec & _).
    vm_compute in Et. injection Et as <-. exact Ec.
  - destruct (step_target_is_first_slot Validation (Demo.batch_of 1) 0 Demo.world0
                _ _ (MetricCollection_clone Demo.collection "val_") Hs eq_refl)
      as (t & Et & _ & _ & Ec & _).
    vm_compute in Et. injection Et as <-. exact Ec.
  - destruct (step_target_is_first_slot Test (Demo.batch_of 1) 0 Demo.world0
                _ _ (MetricCollection_clone Demo.collection "test_") Hs eq_refl)
      as (t & Et & _ & _ & Ec & _).
    vm_compute in Et. injection Et as <-. exact Ec.
Defined.

(** ** The test-metrics cache *)

Lemma run_no_test_epoch_end (ks : list Hook) (w : World) :
  ~ In OnTestEpochEnd ks ->
  save_test_metrics (this (snd (run ks w))) = save_test_metrics (this w).
Proof.
  revert w. induction ks as [|k ks IH]; intros w Hn; [reflexivity|].
  rewrite run_cons.
  assert (Hk : k <> OnTestEpochEnd) by (intros ->; apply Hn; left; reflexivity).
  pose proof (run_hook_save k w Hk) as E.
  destruct (run_hook k w) as [[[]|e] w']; simpl in *; [|exact E].
  rewrite IH; [exact E|]. intros Hin. apply Hn. right. exact Hin.
Qed.

(** C10: the constructor leaves [save_test_metrics] unassigned, and it
    stays so, reading it raising an attribute error, for as long as no
    [on_test_epoch_end] has run; [forward], [shared_step] and every hook
    other than [on_test_epoch_end] leave the field as it is; and each
    [on_test_epoch_end], whatever the field held before, sets it to the
    host copy of what the test collection then computes. *)
Theorem save_test_metrics_lifecycle :
  (forall alise dec cfg h0 w0,
     AliseFSSeg_init alise dec cfg h0 = Ok w0 ->
     save_test_metrics (this w0) = None /\
     forall ks, ~ In OnTestEpochEnd ks ->
       save_test_metrics (this (snd (run ks w0))) = None /\
       fst (read_save_test_metrics (snd (run ks w0))) =
         Raise (AttributeError "save_test_metrics")) /\
  (forall batch w,
     snd (forward batch w) = w /\ snd (shared_step batch w) = w) /\
  (forall k w,
     k <> OnTestEpochEnd ->
     save_test_metrics (this (snd (run_hook k w))) = save_test_metrics (this w)) /\
  (forall w me,
     heap w !! test_metrics (this w) = Some me ->
     save_test_metrics (this (snd (on_test_epoch_end w))) =
       Some (move_to_host (MetricCollection_compute me)) /\
     fst (read_save_test_metrics (snd (on_test_epoch_end w))) =
       Ok (move_to_host (MetricCollection_compute me))).
Proof.
  split; [|split; [|split]].
  - intros alise dec cfg h0 w0 Hi.
    destruct (AliseFSSeg_init_inv _ _ _ _ _ Hi) as (mc & Hm).
    assert (H0 : save_test_metrics (this w0) = None).
    { rewrite (AliseFSSeg_init_ok _ _ _ _ _ Hm) in Hi. injection Hi as <-.
      reflexivity. }
    split; [exact H0|]. intros ks Hn.
    pose proof (run_no_test_epoch_end ks w0 Hn) as E. rewrite H0 in E.
    split; [exact E|].
    unfold read_save_test_metrics. rewrite bind_run, get_self_run, E.
    reflexivity.
  - intros batch w. rewrite forward_run, shared_step_run. split; reflexivity.
  - apply run_hook_save.
  - intros w me He.
    assert (E : save_test_metrics (this (snd (on_test_epoch_end w))) =
                Some (move_to_host (MetricCollection_compute me))).
    { unfold_hooks. exec; simplify_eq. reflexivity. }
    split; [exact E|].
    unfold read_save_test_metrics. rewrite bind_run, get_self_run, E.
    reflexivity.
Qed.

Lemma save_test_metrics_lifecycle_witness :
  save_test_metrics (this Demo.world0) = None /\
  fst (read_save_test_metrics
         (snd (run [TrainingStep (Demo.batch_of 0) 0; OnTrainEpochEnd;
                    ValidationStep (Demo.batch_of 1) 0; OnValidationEpochEnd;
                    TestStep (Demo.batch_of 2) 0] Demo.world0))) =
    Raise (AttributeError "save_test_metrics") /\
  save_test_metrics (this (snd (on_test_epoch_end Demo.world0))) =
    Some (move_to_host (MetricCollection_compute
                          (MetricCollection_clone Demo.collection "test_"))).
Proof.
  destruct save_test_metrics_lifecycle as (Hinit & _ & _ & Hset).
  destruct (Hinit Demo.alise (Demo.head 4) Demo.train_config Demo.heap0
              Demo.world0 eq_refl) as (H0 & Hks).
  split; [exact H0|]. split.
  - apply Hks. simpl. intros H.
    repeat (destruct H as [H|H]; [discriminate|]). exact H.
  - apply (Hset Demo.world0). reflexivity.
Defined.

(** ** A training epoch *)

Lemma run_app (ks ks' : list Hook) (w : World) :
  run (ks ++ ks') w =
  match run ks w with
  | (Ok _, w') => run ks' w'
  | (Raise e, w') => (Raise e, w')
  end.
Proof.
  revert w. induction ks as [|k ks IH]; intros w; [reflexivity|].
  rewrite <- app_comm_cons, !run_cons.
  destruct (run_hook k w) as [[[]|e] w']; [apply IH|reflexivity].
Qed.

Lemma update_items_ok (ms ms1 : list (string * Metric)) (preds target : Tensor) :
  Forall2 (fun km km' => fst km' = fst km /\
                         Metric_update (snd km) preds target = Ok (snd km'))
          ms ms1 ->
  update_items ms preds target = (Ok tt, ms1).
Proof.
  induction 1 as [|[k m] [k' m'] ms ms1 [Hk Hu] _ IH]; [reflexivity|].
  simpl in *. subst k'. rewrite Hu, IH. reflexivity.
Qed.

Lemma fed_nil (ms ms' : list (string * Metric)) : fed ms [] ms' -> ms' = ms.
Proof.
  induction 1 as [|[k m] [k' m'] ms ms' [Hk Hu] _ IH]; [reflexivity|].
  simpl in *. injection Hu as ->. subst. reflexivity.
Qed.

Lemma fed_cons (ms ms' : list (string * Metric)) (u : Tensor * Tensor)
    (ups : list (Tensor * Tensor)) :
  fed ms (u :: ups) ms' ->
  exists ms1,
    Forall2 (fun km km' => fst km' = fst km /\
                           Metric_update (snd km) (fst u) (snd u) = Ok (snd km'))
            ms ms1 /\
    fed ms1 ups ms'.
Proof.
  induction 1 as [|[k m] [k' m'] ms ms' [Hk Hu] _ (ms1 & H1 & H2)].
  - exists []. split; constructor.
  - simpl in *.
    destruct (Metric_update m (fst u) (snd u)) as [m1|e] eqn:E; [|discriminate].
    simpl in Hu. exists ((k, m1) :: ms1). split.
    + constructor; [split; [reflexivity|exact E]|exact H1].
    + constructor; [split; [exact Hk|exact Hu]|exact H2].
Qed.


Lemma observed_in_this (w w' : World) (s : ObservedStep) :
  this w' = this w -> observed_in w s -> observed_in w' s.
Proof.
  unfold observed_in, step_io. rewrite !shared_step_run. simpl.
  intros ->. tauto.
Qed.

Lemma train_steps_run (steps : list ObservedStep) :
  forall (w : World) (pfx : option string) (ms ms' : list (string * Metric)),
    heap w !! train_metrics (this w) = Some {| prefix := pfx; metrics_of := ms |} ->
    Forall (observed_in w) steps ->
    fed ms (updates_of steps) ms' ->
    run (training_hooks steps) w =
    (Ok tt,
     {| this := this w;
        heap := <[train_metrics (this w) :=
                    {| prefix := pfx; metrics_of := ms' |}]> (heap w);
        sink := sink w ++ map (train_loss_entry (bs (this w))) (losses_of steps);
        calls := calls w ++
                 map (fun s => CallUpdate (train_metrics (this w))
                                          (os_out s) (os_target s)) steps |}).
Proof.
  induction steps as [|s steps IH]; intros w pfx ms ms' Hh Hobs Hfed.
  - apply fed_nil in Hfed. subst ms'.
    rewrite (list_insert_id _ _ _ Hh). simpl.
    rewrite !app_nil_r. destruct w; reflexivity.
  - inversion Hobs as [|s' steps' [Hs Ht] Hrest]; subst. simpl in Hs, Ht.
    simpl in Hfed. apply fed_cons in Hfed as (ms1 & H1 & H2). simpl in H1.
    pose proof (update_items_ok _ _ _ _ H1) as Hup.
    assert (Hmu : MetricCollection_update {| prefix := pfx; metrics_of := ms |}
                    (os_out s) (os_target s) =
                  (Ok tt, {| prefix := pfx; metrics_of := ms1 |})).
    { unfold MetricCollection_update. simpl. rewrite Hup. reflexivity. }
    pose proof (training_step_run (os_batch s) (os_idx s) w _ _ _ _ _
                  Hs Ht Hh Hmu) as Hstep.
    change (training_hooks (s :: steps))
      with (TrainingStep (os_batch s) (os_idx s) :: training_hooks steps).
    rewrite run_cons. unfold run_hook. rewrite bind_run, Hstep.
    change ((ret tt : M unit)
              {| this := this w;
                 heap := <[train_metrics (this w) :=
                             {| prefix := pfx; metrics_of := ms1 |}]> (heap w);
                 sink := sink w ++ [train_loss_entry (bs (this w)) (os_loss s)];
                 calls := calls w ++
                          [CallUpdate (train_metrics (this w)) (os_out s) (os_target s)] |})
      with (Ok tt,
            {| this := this w;
               heap := <[train_metrics (this w) :=
                           {| prefix := pfx; metrics_of := ms1 |}]> (heap w);
               sink := sink w ++ [train_loss_entry (bs (this w)) (os_loss s)];
               calls := calls w ++
                        [CallUpdate (train_metrics (this w)) (os_out s) (os_target s)] |}).
    cbv iota beta.
    rewrite (IH _ pfx ms1 ms').
    + simpl. rewrite list_insert_insert_eq, <- !app_assoc. reflexivity.
    + simpl. apply list_lookup_insert_eq. eapply lookup_lt_Some. exact Hh.
    + eapply Forall_impl; [exact Hrest|]. intros s0.
      apply observed_in_this. reflexivity.
    + exact H2.
Qed.

Lemma on_train_epoch_end_run (w : World) (mt : MetricCollection) :
  heap w !! train_metrics (this w) = Some mt ->
  on_train_epoch_end w =
  (Ok tt,
   {| this := this w;
      heap := heap w;
      sink := sink w ++ map (epoch_entry (bs (this w))) (MetricCollection_compute mt);
      calls := calls w ++ [CallCompute (train_metrics (this w));
                           CallCompute (train_metrics (this w))] |}).
Proof.
  intros Ht. unfold_hooks. exec; simplify_eq.
  rewrite <- app_assoc. reflexivity.
Qed.






(** * Further properties of the adapter *)

(** ** Failures of the forward pass *)

Lemma rearrange_BTCHW_BHWTC_rank (x : Tensor) :
  length (shape x) <> 5 -> rearrange_BTCHW_BHWTC x = Raise EinopsError.
Proof.
  unfold rearrange_BTCHW_BHWTC.
  destruct (shape x) as [|? [|? [|? [|? [|? [|? ?]]]]]]; simpl; intros H;
    try reflexivity; lia.
Qed.

Lemma rearrange_BHWF_BFHW_rank (x : Tensor) :
  length (shape x) <> 4 -> rearrange_BHWF_BFHW x = Raise EinopsError.
Proof.
  unfold rearrange_BHWF_BFHW.
  destruct (shape x) as [|? [|? [|? [|? [|? ?]]]]]; simpl; intros H;
    try reflexivity; lia.
Qed.

(** X1: when the model returns a tensor that does not have five axes,
    [forward] raises an einops error without changing the world; the same
    holds when the decoder returns a tensor that does not have four axes. *)
Theorem forward_rejects_wrong_rank (batch : CDBInput) (w : World) (x : Tensor) :
  alise_forward (model (this w))
    (sits (year1 batch)) (positions (year1 batch)) (pad_mask (year1 batch))
    = Ok x ->
  (length (shape x) <> 5 -> forward batch w = (Raise EinopsError, w)) /\
  (forall x1 x2,
     rearrange_BTCHW_BHWTC x = Ok x1 ->
     call (decoder (this w)) x1 = Ok x2 ->
     length (shape x2) <> 4 ->
     forward batch w = (Raise EinopsError, w)).
Proof.
  intros Hm. split.
  - intros Hr. rewrite forward_run. unfold forward_value. rewrite Hm. simpl.
    rewrite (rearrange_BTCHW_BHWTC_rank x Hr). reflexivity.
  - intros x1 x2 H1 H2 Hr. rewrite forward_run. unfold forward_value.
    rewrite Hm. simpl. rewrite H1. simpl. rewrite H2. simpl.
    rewrite (rearrange_BHWF_BFHW_rank x2 Hr). reflexivity.
Qed.

Lemma forward_rejects_wrong_rank_witness :
  let flat := {| year1 := {| sits := positions (year1 (Demo.batch_of 0));
                             positions := positions (year1 (Demo.batch_of 0));
                             pad_mask := pad_mask (year1 (Demo.batch_of 0)) |};
                 label := label (Demo.batch_of 0) |} in
  forward flat Demo.world0 = (Raise EinopsError, Demo.world0).
Proof.
  intros flat.
  destruct (forward_rejects_wrong_rank flat Demo.world0 (sits (year1 flat)) eq_refl)
    as (Hrank & _).
  apply Hrank. simpl. lia.
Defined.

(** X2: an exception raised by the model or by the decoder comes out of
    [forward], and so out of [shared_step], unchanged, and the world is left
    as it was. *)
Theorem forward_propagates (batch : CDBInput) (w : World) (e : Exn) :
  (alise_forward (model (this w))
     (sits (year1 batch)) (positions (year1 batch)) (pad_mask (year1 batch))
     = Raise e ->
   forward batch w = (Raise e, w) /\ shared_step batch w = (Raise e, w)) /\
  (forall x x1,
     alise_forward (model (this w))
       (sits (year1 batch)) (positions (year1 batch)) (pad_mask (year1 batch))
       = Ok x ->
     rearrange_BTCHW_BHWTC x = Ok x1 ->
     call (decoder (this w)) x1 = Raise e ->
     forward batch w = (Raise e, w) /\ shared_step batch w = (Raise e, w)).
Proof.
  split.
  - intros Hm. rewrite shared_step_run, forward_run. unfold forward_value.
    rewrite Hm. split; reflexivity.
  - intros x x1 Hm H1 H2. rewrite shared_step_run, forward_run.
    unfold forward_value. rewrite Hm. simpl. rewrite H1. simpl. rewrite H2.
    split; reflexivity.
Qed.

Lemma forward_propagates_witness :
  let w := {| this := {| loss := Demo.l1; bs := 2; model := Demo.alise;
                         decoder := Demo.head 3;
                         train_metrics := 1; val_metrics := 2; test_metrics := 3;
                         save_test_metrics := None |};
              heap := heap Demo.world0; sink := []; calls := [] |} in
  shared_step (Demo.batch_of 0) w = (Raise (ExternalError "feature size"), w).
Proof.
  intros w.
  destruct (forward_propagates (Demo.batch_of 0) w (ExternalError "feature size"))
    as (_ & Hdec).
  apply (Hdec (sits (year1 (Demo.batch_of 0)))
              {| shape := [1; 1; 2; 4];
                 data := [1; 3; 5; 7; 2; 4; 6; 8]%Z;
                 device := cuda 0 |}).
  - reflexivity.
  - vm_compute. reflexivity.
  - vm_compute. reflexivity.
Defined.

(** ** The target slice *)

(** X3: for a label with axes (B,T,H,W) and at least one temporal slot,
    the target [label[:, 0, ...]] has axes (B,H,W), stays on the label's
    device, holds exactly B*H*W elements, and its element (b,h,w) is the
    label's element (b,0,h,w). *)
Theorem first_slot_elements (x y : Tensor) (B T H W : nat) :
  shape x = [B; T; H; W] ->
  first_slot x = Ok y ->
  shape y = [B; H; W] /\
  device y = device x /\
  well_formed y /\
  forall b h v, b < B -> h < H -> v < W ->
    get y [b; h; v] = get x [b; 0; h; v].
Proof.
  intros Hs Hy. unfold first_slot in Hy. rewrite Hs in Hy.
  destruct T as [|T]; [discriminate|]. injection Hy as <-.
  split; [reflexivity|]. split; [reflexivity|]. split.
  - unfold well_formed. simpl.
    rewrite (length_flat_map_seq _ (H * (W * 1))); [lia|].
    intros b. rewrite length_map, length_seq. reflexivity.
  - intros b h v Hb Hh Hv. unfold get. rewrite Hs. simpl.
    assert (A1 : h * W + v < H * (W * 1))
      by (rewrite Nat.mul_1_r; apply index_bound; lia).
    replace ((b * H + h) * W + v) with (b * (H * (W * 1)) + (h * W + v)) by lia.
    rewrite nth_flat_map_seq;
      [| intros; rewrite length_map, length_seq; reflexivity | lia | exact A1].
    rewrite nth_map_seq by exact A1. f_equal. lia.
Qed.

Lemma first_slot_elements_witness :
  exists y,
    first_slot (label (Demo.batch_of 7)) = Ok y /\
    shape y = [1; 1; 2] /\
    get y [0; 0; 1] = get (label (Demo.batch_of 7)) [0; 0; 0; 1].
Proof.
  exists {| shape := [1; 1; 2]; data := [7; 1]%Z; device := cuda 0 |}.
  destruct (first_slot_elements (label (Demo.batch_of 7))
              {| shape := [1; 1; 2]; data := [7; 1]%Z; device := cuda 0 |}
              1 2 1 2 eq_refl eq_refl) as (Hs & _ & _ & Hg).
  split; [reflexivity|]. split; [exact Hs|]. apply Hg; lia.
Defined.

(** X4: when the forward pass succeeds but the label has fewer than two
    axes, or an empty temporal axis, [shared_step] raises an index error and
    leaves the world as it was; the loss is not asked for. *)
Theorem shared_step_rejects_label (batch : CDBInput) (w : World) (out : Tensor) :
  fst (forward batch w) = Ok out ->
  (length (shape (label batch)) < 2 \/
   exists B rest, shape (label batch) = B :: 0 :: rest) ->
  shared_step batch w = (Raise IndexError, w).
Proof.
  intros Hf Hl. rewrite shared_step_run. rewrite forward_run in Hf. simpl in Hf.
  rewrite Hf. simpl.
  assert (E : first_slot (label batch) = Raise IndexError).
  { unfold first_slot. destruct Hl as [Hl|(B & rest & Hl)].
    - destruct (shape (label batch)) as [|? [|? ?]]; simpl in Hl;
        try reflexivity; lia.
    - rewrite Hl. reflexivity. }
  rewrite E. reflexivity.
Qed.

Lemma shared_step_rejects_label_witness :
  let b := {| year1 := year1 (Demo.batch_of 0);
              label := {| shape := [1; 0; 1; 2]; data := []; device := cuda 0 |} |} in
  shared_step b Demo.world0 = (Raise IndexError, Demo.world0).
Proof.
  intros b.
  apply (shared_step_rejects_label b Demo.world0
           {| shape := [1; 2; 1; 2]; data := [16; 20; 1; 2]%Z; device := cuda 0 |}).
  - vm_compute. reflexivity.
  - right. exists 1, [1; 2]. reflexivity.
Defined.

(** ** Steps and history *)

(** X6: [training_step] writes to the sink exactly when it returns: one
    [train_loss] entry holding the returned loss when it returns normally,
    nothing when it raises (be it from the shared step or from the metric
    update); and a loss it returns is the loss of the shared step. *)
Theorem training_step_logs_iff_returns (batch : CDBInput) (batch_idx : Z)
    (w : World) :
  sink (snd (training_step batch batch_idx w)) =
    sink w ++
    match fst (training_step batch batch_idx w) with
    | Ok l => [train_loss_entry (bs (this w)) l]
    | Raise _ => []
    end /\
  forall l, fst (training_step batch batch_idx w) = Ok l ->
            exists out, fst (shared_step batch w) = Ok (out, l).
Proof.
  rewrite shared_step_run. unfold_hooks. exec;
    rewrite ?app_nil_r; split; try reflexivity; intros l0 Hl;
    try discriminate; injection Hl as <-; eauto.
Qed.

(** X7: in each of the three phases, when the shared step raises, the
    step raises the same exception and changes nothing: no metric is
    updated, nothing is logged, no call reaches a collection. *)
Theorem step_failure_is_clean (p : Phase) (batch : CDBInput) (batch_idx : Z)
    (w : World) (e : Exn) :
  fst (shared_step batch w) = Raise e ->
  run_hook (step_hook p batch batch_idx) w = (Raise e, w).
Proof.
  intros Hs.
  assert (Hrun : shared_step batch w = (Raise e, w)).
  { rewrite shared_step_run in *. simpl in Hs. rewrite Hs. reflexivity. }
  destruct p; simpl; unfold training_step, validation_step, test_step;
    rewrite ?bind_run, Hrun; reflexivity.
Qed.

Lemma step_failure_is_clean_witness :
  let b := {| year1 := year1 (Demo.batch_of 0);
              label := {| shape := [4]; data := [1; 2; 3; 4]%Z; device := cuda 0 |} |} in
  run_hook (TrainingStep b 0) Demo.world0 = (Raise IndexError, Demo.world0) /\
  run_hook (ValidationStep b 0) Demo.world0 = (Raise IndexError, Demo.world0) /\
  run_hook (TestStep b 0) Demo.world0 = (Raise IndexError, Demo.world0).
Proof.
  intros b.
  assert (Hs : fst (shared_step b Demo.world0) = Raise IndexError)
    by (vm_compute; reflexivity).
  split; [|split].
  - apply (step_failure_is_clean Train b 0 Demo.world0 IndexError Hs).
  - apply (step_failure_is_clean Validation b 0 Demo.world0 IndexError Hs).
  - apply (step_failure_is_clean Test b 0 Demo.world0 IndexError Hs).
Defined.

(** ** Whole epochs *)

Lemma step_hook_ok (p : Phase) (batch : CDBInput) (batch_idx : Z) (w : World)
    (out l target : Tensor) (mc mc' : MetricCollection) :
  fst (shared_step batch w) = Ok (out, l) ->
  first_slot (label batch) = Ok target ->
  heap w !! phase_metrics p (this w) = Some mc ->
  MetricCollection_update mc out target = (Ok tt, mc') ->
  run_hook (step_hook p batch batch_idx) w =
  (Ok tt,
   {| this := this w;
      heap := <[phase_metrics p (this w) := mc']> (heap w);
      sink := sink w ++ step_entries p (bs (this w)) l;
      calls := calls w ++ [CallUpdate (phase_metrics p (this w)) out target] |}).
Proof.
  intros Hs Ht Hh Hu.
  pose proof (shared_step_ok _ _ _ _ Hs) as Hrun.
  destruct p; simpl in Hh |- *.
  - rewrite bind_run,
      (training_step_run batch batch_idx w out l target mc mc' Hs Ht Hh Hu).
    reflexivity.
  - unfold validation_step. rewrite bind_run, Hrun. simpl.
    rewrite bind_run, get_self_run, bind_run, lift_run, Ht.
    rewrite (update_call_run _ _ _ _ _ Hh), Hu. simpl.
    rewrite app_nil_r. reflexivity.
  - unfold test_step. rewrite bind_run, Hrun. simpl.
    rewrite bind_run, get_self_run, bind_run, lift_run, Ht.
    rewrite (update_call_run _ _ _ _ _ Hh), Hu. simpl.
    rewrite app_nil_r. reflexivity.
Qed.


Lemma phase_steps_run (p : Phase) (steps : list ObservedStep) :
  forall (w : World) (pfx : option string) (ms ms' : list (string * Metric)),
    heap w !! phase_metrics p (this w) =
      Some {| prefix := pfx; metrics_of := ms |} ->
    Forall (observed_in w) steps ->
    fed ms (updates_of steps) ms' ->
    run (step_hooks p steps) w =
    (Ok tt,
     {| this := this w;
        heap := <[phase_metrics p (this w) :=
                    {| prefix := pfx; metrics_of := ms' |}]> (heap w);
        sink := sink w ++
                flat_map (step_entries p (bs (this w))) (losses_of steps);
        calls := calls w ++
                 map (fun s => CallUpdate (phase_metrics p (this w))
                                          (os_out s) (os_target s)) steps |}).
Proof.
  induction steps as [|s steps IH]; intros w pfx ms ms' Hh Hobs Hfed.
  - apply fed_nil in Hfed. subst ms'.
    rewrite (list_insert_id _ _ _ Hh). simpl.
    rewrite !app_nil_r. destruct w; reflexivity.
  - inversion Hobs as [|s' steps' [Hs Ht] Hrest]; subst. simpl in Hs, Ht.
    simpl in Hfed. apply fed_cons in Hfed as (ms1 & H1 & H2). simpl in H1.
    pose proof (update_items_ok _ _ _ _ H1) as Hup.
    assert (Hmu : MetricCollection_update {| prefix := pfx; metrics_of := ms |}
                    (os_out s) (os_target s) =
                  (Ok tt, {| prefix := pfx; metrics_of := ms1 |})).
    { unfold MetricCollection_update. simpl. rewrite Hup. reflexivity. }
    pose proof (step_hook_ok p (os_batch s) (os_idx s) w _ _ _ _ _
                  Hs Ht Hh Hmu) as Hstep.
    change (step_hooks p (s :: steps))
      with (step_hook p (os_batch s) (os_idx s) :: step_hooks p steps).
    rewrite run_cons, Hstep.
    rewrite (IH _ pfx ms1 ms').
    + simpl. rewrite list_insert_insert_eq, <- !app_assoc. reflexivity.
    + simpl. apply list_lookup_insert_eq. eapply lookup_lt_Some. exact Hh.
    + eapply Forall_impl; [exact Hrest|]. intros s0.
      apply observed_in_this. reflexivity.
    + exact H2.
Qed.

Lemma epoch_end_run (p : Phase) (w : World) (mc : MetricCollection) :
  heap w !! phase_metrics p (this w) = Some mc ->
  exists w',
    run_hook (epoch_end_hook p) w = (Ok tt, w') /\
    same_config (this w) (this w') /\
    heap w' = heap w /\
    sink w' = sink w ++
              epoch_entries p (bs (this w)) (MetricCollection_compute mc) /\
    save_test_metrics (this w') =
      match p with
      | Test => Some (move_to_host (MetricCollection_compute mc))
      | Train | Validation => save_test_metrics (this w)
      end.
Proof.
  intros Hh. destruct p; simpl in Hh; eexists; simpl; unfold_hooks;
    exec; simplify_eq; (split; [reflexivity|]); simpl;
    rewrite <- ?app_assoc; repeat split.
Qed.

Lemma phase_epoch_run (p : Phase) (steps : list ObservedStep) (w : World)
    (pfx : option string) (ms ms' : list (string * Metric)) :
  heap w !! phase_metrics p (this w) =
    Some {| prefix := pfx; metrics_of := ms |} ->
  Forall (observed_in w) steps ->
  fed ms (updates_of steps) ms' ->
  exists w1,
    run (step_hooks p steps ++ [epoch_end_hook p]) w = (Ok tt, w1) /\
    same_config (this w) (this w1) /\
    heap w1 = <[phase_metrics p (this w) :=
                  {| prefix := pfx; metrics_of := ms' |}]> (heap w) /\
    sink w1 = sink w ++
              flat_map (step_entries p (bs (this w))) (losses_of steps) ++
              epoch_entries p (bs (this w))
                (MetricCollection_compute {| prefix := pfx; metrics_of := ms' |}) /\
    save_test_metrics (this w1) =
      match p with
      | Test => Some (move_to_host
                        (MetricCollection_compute
                           {| prefix := pfx; metrics_of := ms' |}))
      | Train | Validation => save_test_metrics (this w)
      end.
Proof.
  intros Hh Hobs Hfed.
  pose proof (phase_steps_run p steps w pfx ms ms' Hh Hobs Hfed) as Hrun.
  match type of Hrun with _ = (_, ?w') => set (wm := w') in * end.
  assert (Hm : heap wm !! phase_metrics p (this wm) =
               Some {| prefix := pfx; metrics_of := ms' |}).
  { simpl. apply list_lookup_insert_eq. eapply lookup_lt_Some. exact Hh. }
  destruct (epoch_end_run p wm _ Hm) as (w1 & He & Hc & Hheap & Hsink & Hsave).
  exists w1. rewrite run_app, Hrun.
  change (run [epoch_end_hook p] wm)
    with ((run_hook (epoch_end_hook p) ≫= (fun _ => run [])) wm).
  rewrite bind_run, He. simpl.
  split; [reflexivity|]. split; [exact Hc|]. split; [exact Hheap|].
  split; [|exact Hsave].
  rewrite Hsink. simpl. rewrite <- app_assoc. reflexivity.
Qed.

Lemma init_phase_lookup (alise : ALISE) (dec : Module_) (cfg : FSSegTrainConfig)
    (h0 : list MetricCollection) (mc : MetricCollection) (w0 : World) (p : Phase) :
  h0 !! metrics cfg = Some mc ->
  AliseFSSeg_init alise dec cfg h0 = Ok w0 ->
  heap w0 !! phase_metrics p (this w0) =
    Some {| prefix := Some (phase_prefix p); metrics_of := metrics_of mc |} /\
  sink w0 = [] /\ save_test_metrics (this w0) = None.
Proof.
  intros Hm Hi. rewrite (AliseFSSeg_init_ok _ _ _ _ _ Hm) in Hi.
  injection Hi as <-. simpl. split; [|split; reflexivity].
  destruct (lookup_tail3 h0 (MetricCollection_clone mc "train_")
              (MetricCollection_clone mc "val_")
              (MetricCollection_clone mc "test_")) as (E1 & E2 & E3).
  destruct p; simpl; assumption.
Qed.

Lemma eval_step_entries_nil (p : Phase) (b : nat) (ls : list Tensor) :
  p <> Train -> flat_map (step_entries p b) ls = [].
Proof.
  intros Hp. induction ls as [|l ls IH]; [reflexivity|].
  simpl. rewrite IH. destruct p; [congruence|reflexivity|reflexivity].
Qed.

(** X8: from a newly constructed adapter, N validation steps whose
    shared steps succeed and whose updates every metric accepts, followed by
    [on_validation_epoch_end], succeed and leave in the sink nothing but one
    entry per metric, named [val_] followed by the metric's name and computed
    from that metric fed exactly the N updates; [save_test_metrics] stays
    unassigned. *)
Theorem validation_epoch_aggregates (alise : ALISE) (dec : Module_)
    (cfg : FSSegTrainConfig) (h0 : list MetricCollection)
    (mc : MetricCollection) (w0 : World)
    (steps : list ObservedStep) (ms' : list (string * Metric)) :
  h0 !! metrics cfg = Some mc ->
  AliseFSSeg_init alise dec cfg h0 = Ok w0 ->
  Forall (observed_in w0) steps ->
  fed (metrics_of mc) (updates_of steps) ms' ->
  exists w1,
    run (step_hooks Validation steps ++ [OnValidationEpochEnd]) w0 = (Ok tt, w1) /\
    sink w1 = map (epoch_entry (bs (this w0))) (computed_as "val_" ms') /\
    save_test_metrics (this w1) = None.
Proof.
  intros Hm Hi Hobs Hfed.
  destruct (init_phase_lookup alise dec cfg h0 mc w0 Validation Hm Hi)
    as (Hh & Hsink0 & Hsave0).
  destruct (phase_epoch_run Validation steps w0 _ _ ms' Hh Hobs Hfed)
    as (w1 & Hrun & _ & _ & Hsink & Hsave).
  exists w1. split; [exact Hrun|]. split.
  - rewrite Hsink, Hsink0, eval_step_entries_nil by discriminate. reflexivity.
  - rewrite Hsave. exact Hsave0.
Qed.

Lemma validation_epoch_aggregates_witness :
  exists w1,
    run (step_hooks Validation Demo.steps ++ [OnValidationEpochEnd]) Demo.world0
      = (Ok tt, w1) /\
    map log_name (sink w1) = ["val_sum"; "val_count"] /\
    map (fun e => data (log_value e)) (sink w1) = [[166]; [2]]%Z.
Proof.
  assert (Hobs : Forall (observed_in Demo.world0) Demo.steps).
  { repeat constructor; vm_compute; reflexivity. }
  assert (Hfed : fed (metrics_of Demo.collection) (updates_of Demo.steps)
                     Demo.fed_metrics).
  { repeat constructor; vm_compute; reflexivity. }
  destruct (validation_epoch_aggregates Demo.alise (Demo.head 4)
              Demo.train_config Demo.heap0 Demo.collection Demo.world0
              Demo.steps Demo.fed_metrics eq_refl eq_refl Hobs Hfed)
    as (w1 & Hrun & Hsink & _).
  exists w1. split; [exact Hrun|]. rewrite Hsink. split; reflexivity.
Defined.

(** X9: from a newly constructed adapter, N successful test steps
    followed by [on_test_epoch_end] succeed; [save_test_metrics] then holds,
    in the order of the collection, one item per metric keyed [test_]
    followed by the metric's name, whose value is the host copy of that
    metric's aggregate over exactly the N updates, and the sink holds the
    same items and nothing else. *)
Theorem test_epoch_results (alise : ALISE) (dec : Module_)
    (cfg : FSSegTrainConfig) (h0 : list MetricCollection)
    (mc : MetricCollection) (w0 : World)
    (steps : list ObservedStep) (ms' : list (string * Metric)) :
  h0 !! metrics cfg = Some mc ->
  AliseFSSeg_init alise dec cfg h0 = Ok w0 ->
  Forall (observed_in w0) steps ->
  fed (metrics_of mc) (updates_of steps) ms' ->
  exists w1,
    run (step_hooks Test steps ++ [OnTestEpochEnd]) w0 = (Ok tt, w1) /\
    save_test_metrics (this w1) =
      Some (map (fun km => ("test_" +:+ fst km, to_cpu (Metric_compute (snd km))))
                ms') /\
    sink w1 =
      map (fun km => epoch_entry (bs (this w0))
                       ("test_" +:+ fst km, to_cpu (Metric_compute (snd km))))
          ms' /\
    fst (read_save_test_metrics w1) =
      Ok (map (fun km => ("test_" +:+ fst km, to_cpu (Metric_compute (snd km))))
              ms').
Proof.
  intros Hm Hi Hobs Hfed.
  destruct (init_phase_lookup alise dec cfg h0 mc w0 Test Hm Hi)
    as (Hh & Hsink0 & _).
  destruct (phase_epoch_run Test steps w0 _ _ ms' Hh Hobs Hfed)
    as (w1 & Hrun & _ & _ & Hsink & Hsave).
  assert (E : move_to_host
                (MetricCollection_compute
                   {| prefix := Some (phase_prefix Test); metrics_of := ms' |}) =
              map (fun km => ("test_" +:+ fst km, to_cpu (Metric_compute (snd km))))
                  ms').
  { unfold move_to_host, MetricCollection_compute. simpl.
    rewrite List.map_map. reflexivity. }
  exists w1. split; [exact Hrun|]. rewrite E in Hsave. split; [exact Hsave|].
  split.
  - rewrite Hsink, Hsink0, eval_step_entries_nil by discriminate.
    unfold epoch_entries. rewrite E, List.map_map. reflexivity.
  - unfold read_save_test_metrics. rewrite bind_run, get_self_run, Hsave.
    reflexivity.
Qed.

Lemma test_epoch_results_witness :
  exists w1,
    run (step_hooks Test Demo.steps ++ [OnTestEpochEnd]) Demo.world0 = (Ok tt, w1) /\
    save_test_metrics (this w1) =
      Some [("test_sum", {| shape := []; data := [166]%Z; device := cpu |});
            ("test_count", {| shape := []; data := [2]%Z; device := cpu |})].
Proof.
  assert (Hobs : Forall (observed_in Demo.world0) Demo.steps).
  { repeat constructor; vm_compute; reflexivity. }
  assert (Hfed : fed (metrics_of Demo.collection) (updates_of Demo.steps)
                     Demo.fed_metrics).
  { repeat constructor; vm_compute; reflexivity. }
  destruct (test_epoch_results Demo.alise (Demo.head 4)
              Demo.train_config Demo.heap0 Demo.collection Demo.world0
              Demo.steps Demo.fed_metrics eq_refl eq_refl Hobs Hfed)
    as (w1 & Hrun & Hsave & _).
  exists w1. split; [exact Hrun|]. rewrite Hsave. reflexivity.
Defined.

(** ** No reset *)





(** X11: no epoch-end hook changes the store, in any world; so with the
    phase's collection in the store, running the epoch end twice in a row
    succeeds and logs the same entries twice. *)
Theorem epoch_end_keeps_store (p : Phase) (w : World) :
  heap (snd (run_hook (epoch_end_hook p) w)) = heap w /\
  forall mc,
    heap w !! phase_metrics p (this w) = Some mc ->
    exists w2,
      run [epoch_end_hook p; epoch_end_hook p] w = (Ok tt, w2) /\
      heap w2 = heap w /\
      sink w2 = sink w ++
        epoch_entries p (bs (this w)) (MetricCollection_compute mc) ++
        epoch_entries p (bs (this w)) (MetricCollection_compute mc).
Proof.
  split.
  - destruct p; simpl; unfold_hooks; exec; reflexivity.
  - intros mc Hh.
    destruct (epoch_end_run p w mc Hh) as (w1 & E1 & Hc1 & Hheap1 & Hsink1 & _).
    assert (Hp1 : phase_metrics p (this w1) = phase_metrics p (this w)).
    { destruct Hc1 as (_ & _ & _ & _ & Et & Ev & Ee). destruct p; assumption. }
    assert (Hb1 : bs (this w1) = bs (this w)) by apply Hc1.
    assert (Hh1 : heap w1 !! phase_metrics p (this w1) = Some mc)
      by (rewrite Hp1, Hheap1; exact Hh).
    destruct (epoch_end_run p w1 mc Hh1) as (w2 & E2 & _ & Hheap2 & Hsink2 & _).
    exists w2. rewrite run_cons, E1, run_cons, E2. simpl.
    split; [reflexivity|]. split; [congruence|].
    rewrite Hsink2, Hsink1, Hb1, <- app_assoc. reflexivity.
Qed.

Lemma epoch_end_keeps_store_witness :
  exists w2,
    run [OnValidationEpochEnd; OnValidationEpochEnd] Demo.world0 = (Ok tt, w2) /\
    heap w2 = heap Demo.world0 /\
    map log_name (sink w2) = ["val_sum"; "val_count"; "val_sum"; "val_count"].
Proof.
  destruct (epoch_end_keeps_store Validation Demo.world0) as (_ & Htwice).
  destruct (Htwice (MetricCollection_clone Demo.collection "val_") eq_refl)
    as (w2 & Hrun & Hheap & Hsink).
  exists w2. split; [exact Hrun|]. split; [exact Hheap|].
  rewrite Hsink. reflexivity.
Defined.

(** ** Lifetime invariants *)

Lemma run_heap_length (ks : list Hook) (w : World) :
  length (heap (snd (run ks w))) = length (heap w).
Proof.
  revert w. induction ks as [|k ks IH]; intros w; [reflexivity|].
  rewrite run_cons.
  destruct (run_hook_touches k w) as (_ & El & _).
  destruct (run_hook k w) as [[[]|e] w']; simpl in *; [|exact El].
  rewrite IH. exact El.
Qed.

(** X13: whatever sequence of hooks runs, the adapter keeps the model,
    the decoder, the loss, the batch size and the three collection
    references it was constructed with, and the store keeps its size: no
    hook rebinds a collaborator or allocates a collection. *)
Theorem adapter_fixed_for_lifetime (ks : list Hook) (w : World) :
  same_config (this w) (this (snd (run ks w))) /\
  length (heap (snd (run ks w))) = length (heap w).
Proof.
  split; [apply run_same_config|apply run_heap_length].
Qed.

(** ** Names of the logged entries *)

Lemma update_items_names (ms : list (string * Metric)) (preds target : Tensor) :
  map fst (snd (update_items ms preds target)) = map fst ms.
Proof.
  induction ms as [|[k m] ms IH]; [reflexivity|].
  simpl. destruct (Metric_update m preds target); simpl; [|reflexivity].
  rewrite IH. reflexivity.
Qed.

Lemma run_hook_own (k : Hook) (w : World) (mc : MetricCollection) :
  heap w !! phase_metrics (phase_of k) (this w) = Some mc ->
  exists mc',
    heap (snd (run_hook k w)) !! phase_metrics (phase_of k) (this w) = Some mc' /\
    prefix mc' = prefix mc /\
    map fst (metrics_of mc') = map fst (metrics_of mc).
Proof.
  intros Hh. pose proof (lookup_lt_Some _ _ _ Hh) as Hlt.
  destruct k; simpl in Hh, Hlt |- *; unfold_hooks; exec; simplify_eq;
    first [ exists mc; split; [assumption|split; reflexivity]
          | eexists; split; [apply list_lookup_insert_eq; exact Hlt|];
            split; [reflexivity|apply update_items_names] ].
Qed.

Lemma run_hook_named (names : list string) (k : Hook) (w : World) :
  separated w ->
  phase_collections_named names w ->
  phase_collections_named names (snd (run_hook k w)).
Proof.
  intros Hs Hn p.
  destruct (run_hook_touches k w) as (Hc & _ & Hh).
  assert (Hp : phase_metrics p (this (snd (run_hook k w))) =
               phase_metrics p (this w)).
  { destruct Hc as (_ & _ & _ & _ & Et & Ev & Ee). destruct p; simpl; assumption. }
  rewrite Hp. destruct (Hn p) as (mcp & Hl & Hpre & Hnames).
  assert (Hd : p = phase_of k \/ p <> phase_of k)
    by (destruct p, (phase_of k); (left; reflexivity) || (right; discriminate)).
  destruct Hd as [->|Hne].
  - destruct (run_hook_own k w mcp Hl) as (mc' & Hl' & Hpre' & Hnames').
    exists mc'. split; [exact Hl'|]. split; congruence.
  - exists mcp. split; [|split; assumption].
    rewrite Hh; [exact Hl|].
    destruct Hs as (H1 & H2 & H3 & _).
    destruct p, (phase_of k); simpl; congruence.
Qed.

Lemma run_named (names : list string) (ks : list Hook) (w : World) :
  separated w ->
  phase_collections_named names w ->
  phase_collections_named names (snd (run ks w)).
Proof.
  revert w. induction ks as [|k ks IH]; intros w Hs Hn; [exact Hn|].
  rewrite run_cons.
  pose proof (run_hook_separated k w Hs) as Hs'.
  pose proof (run_hook_named names k w Hs Hn) as Hn'.
  destruct (run_hook k w) as [[[]|e] w']; simpl in *; auto.
Qed.

Lemma init_named (alise : ALISE) (dec : Module_) (cfg : FSSegTrainConfig)
    (h0 : list MetricCollection) (mc : MetricCollection) (w0 : World) :
  h0 !! metrics cfg = Some mc ->
  AliseFSSeg_init alise dec cfg h0 = Ok w0 ->
  separated w0 /\ phase_collections_named (map fst (metrics_of mc)) w0.
Proof.
  intros Hm Hi. split.
  - rewrite (AliseFSSeg_init_ok _ _ _ _ _ Hm) in Hi. injection Hi as <-.
    unfold separated; simpl. rewrite length_app; simpl. lia.
  - intros p.
    destruct (init_phase_lookup alise dec cfg h0 mc w0 p Hm Hi) as (Hl & _).
    eexists. split; [exact Hl|]. split; reflexivity.
Qed.

Lemma phase_prefix_apart (p q : Phase) (a b : string) :
  p <> q -> phase_prefix p +:+ a <> phase_prefix q +:+ b.
Proof.
  intros Hne. destruct p, q; try congruence; simpl; discriminate.
Qed.

Lemma compute_names (mcp : MetricCollection) (pfx : string) :
  prefix mcp = Some pfx ->
  map fst (MetricCollection_compute mcp) =
  map (String.append pfx) (map fst (metrics_of mcp)).
Proof.
  intros Hp. unfold MetricCollection_compute. rewrite Hp, !List.map_map.
  reflexivity.
Qed.

(** X14: the names under which a phase's aggregates are computed are
    fixed at construction: after any sequence of hooks, each phase's
    collection computes exactly the configured metric names, in order, each
    behind that phase's prefix ([train_], [val_] or [test_]); and a name
    computed by one phase is never computed by another. *)
Theorem phase_entry_names (alise : ALISE) (dec : Module_)
    (cfg : FSSegTrainConfig) (h0 : list MetricCollection)
    (mc : MetricCollection) (w0 : World) (ks : list Hook) :
  h0 !! metrics cfg = Some mc ->
  AliseFSSeg_init alise dec cfg h0 = Ok w0 ->
  (forall p, exists mcp,
     heap (snd (run ks w0)) !! phase_metrics p (this (snd (run ks w0))) = Some mcp /\
     map fst (MetricCollection_compute mcp) =
       map (String.append (phase_prefix p)) (map fst (metrics_of mc))) /\
  (forall p q mcp mcq k,
     p <> q ->
     heap (snd (run ks w0)) !! phase_metrics p (this (snd (run ks w0))) = Some mcp ->
     heap (snd (run ks w0)) !! phase_metrics q (this (snd (run ks w0))) = Some mcq ->
     In k (map fst (MetricCollection_compute mcp)) ->
     ~ In k (map fst (MetricCollection_compute mcq))).
Proof.
  intros Hm Hi.
  destruct (init_named alise dec cfg h0 mc w0 Hm Hi) as (Hs & Hn).
  pose proof (run_named _ ks w0 Hs Hn) as Hn'.
  split.
  - intros p. destruct (Hn' p) as (mcp & Hl & Hpre & Hnames).
    exists mcp. split; [exact Hl|].
    rewrite (compute_names mcp _ Hpre), Hnames. reflexivity.
  - intros p q mcp mcq k Hne Hlp Hlq Hin Hin'.
    destruct (Hn' p) as (mcp' & Hlp' & Hprep & _).
    destruct (Hn' q) as (mcq' & Hlq' & Hpreq & _).
    assert (mcp' = mcp) by congruence. assert (mcq' = mcq) by congruence.
    subst mcp' mcq'.
    rewrite (compute_names mcp _ Hprep) in Hin.
    rewrite (compute_names mcq _ Hpreq) in Hin'.
    apply in_map_iff in Hin as (a & Ea & _).
    apply in_map_iff in Hin' as (b & Eb & _).
    apply (phase_prefix_apart p q a b Hne). congruence.
Qed.

Lemma phase_entry_names_witness :
  let w := snd (run [TrainingStep (Demo.batch_of 0) 0;
                     ValidationStep (Demo.batch_of 1) 0;
                     OnTrainEpochEnd] Demo.world0) in
  exists mcp,
    heap w !! test_metrics (this w) = Some mcp /\
    map fst (MetricCollection_compute mcp) = ["test_sum"; "test_count"].
Proof.
  intros w.
  destruct (phase_entry_names Demo.alise (Demo.head 4) Demo.train_config
              Demo.heap0 Demo.collection Demo.world0
              [TrainingStep (Demo.batch_of 0) 0;
               ValidationStep (Demo.batch_of 1) 0;
               OnTrainEpochEnd] eq_refl eq_refl) as (Hnames & _).
  destruct (Hnames Test) as (mcp & Hl & Hk).
  exists mcp. split; [exact Hl|exact Hk].
Defined.

(** X15: the step loss and the train aggregates share one name space.
    When the configured collection has a metric named [loss], then after any
    sequence of hooks [on_train_epoch_end] succeeds and among the entries it
    appends is one named [train_loss], the very name of the per-step loss
    entries, with the same per-epoch flag, batch size and progress-bar
    flag, told apart from them only by carrying no per-step flag. *)
Theorem train_loss_name_clash (alise : ALISE) (dec : Module_)
    (cfg : FSSegTrainConfig) (h0 : list MetricCollection)
    (mc : MetricCollection) (w0 : World) (ks : list Hook) :
  h0 !! metrics cfg = Some mc ->
  AliseFSSeg_init alise dec cfg h0 = Ok w0 ->
  In "loss" (map fst (metrics_of mc)) ->
  exists w' e,
    on_train_epoch_end (snd (run ks w0)) = (Ok tt, w') /\
    In e (skipn (length (sink (snd (run ks w0)))) (sink w')) /\
    log_name e = "train_loss" /\
    log_on_step e = None /\
    log_on_epoch e = Some true /\
    log_batch_size e = Some (bs (this w0)) /\
    log_prog_bar e = true.
Proof.
  intros Hm Hi Hin.
  destruct (init_named alise dec cfg h0 mc w0 Hm Hi) as (Hs & Hn).
  destruct (run_named _ ks w0 Hs Hn Train) as (mcp & Hl & Hpre & Hnames).
  destruct (epoch_end_run Train _ mcp Hl) as (w' & He & _ & _ & Hsink & _).
  assert (Hk : In "train_loss" (map fst (MetricCollection_compute mcp))).
  { rewrite (compute_names mcp _ Hpre), Hnames.
    apply in_map_iff. exists "loss". split; [reflexivity|exact Hin]. }
  apply in_map_iff in Hk as (kv & Ek & Hkv).
  assert (Hb : bs (this (snd (run ks w0))) = bs (this w0))
    by apply (run_same_config ks w0).
  exists w', (epoch_entry (bs (this (snd (run ks w0)))) kv).
  split; [exact He|]. split; [|split; [exact Ek|]].
  - rewrite Hsink, drop_app_length. simpl.
    apply in_map_iff. exists kv. split; [reflexivity|exact Hkv].
  - simpl. rewrite Hb. repeat split.
Qed.

Lemma train_loss_name_clash_witness :
  let named_loss := {| prefix := None;
                       metrics_of := [("loss", Demo.sum_metric)] |} in
  exists w0 w',
    AliseFSSeg_init Demo.alise (Demo.head 4) Demo.train_config [named_loss] = Ok w0 /\
    on_train_epoch_end (snd (run [TrainingStep (Demo.batch_of 0) 0] w0)) = (Ok tt, w') /\
    map log_name (sink w') = ["train_loss"; "train_loss"].
Proof.
  intros named_loss.
  destruct (AliseFSSeg_init Demo.alise (Demo.head 4) Demo.train_config [named_loss])
    as [w0|e] eqn:Hi; [|vm_compute in Hi; discriminate].
  destruct (train_loss_name_clash Demo.alise (Demo.head 4) Demo.train_config
              [named_loss] named_loss w0 [TrainingStep (Demo.batch_of 0) 0]
              eq_refl Hi (or_introl eq_refl)) as (w' & e & He & _).
  exists w0, w'. split; [reflexivity|]. split; [exact He|].
  vm_compute in Hi. injection Hi as <-.
  vm_compute in He. injection He as <-. reflexivity.
Defined.

(** ** The builder *)

(** X16: [build_alise_fs_seg] builds the model first and the decoder
    second: a failure of the model builder comes out whatever the decoder
    configuration is, a failure of the decoder builder comes out once the
    model is built, and when both succeed and the configured collection is
    in the store the result is an adapter owning exactly that model and that
    decoder, with the configured loss and batch size, three separate phase
    collections, an empty sink, no [save_test_metrics], and every object that
    was in the store still there. *)
Theorem build_alise_fs_seg_result {ALISEConfigBuild MLPDecoderConfig : Type}
    (build_alise : ALISEConfigBuild -> Res ALISE)
    (MLPDecoder : MLPDecoderConfig -> Res Module_)
    (alise_build_config : ALISEConfigBuild)
    (decoder_config : MLPDecoderConfig)
    (train_config : FSSegTrainConfig) (h : list MetricCollection) :
  (forall e,
     build_alise alise_build_config = Raise e ->
     build_alise_fs_seg build_alise MLPDecoder
       alise_build_config decoder_config train_config h = Raise e) /\
  (forall alise e,
     build_alise alise_build_config = Ok alise ->
     MLPDecoder decoder_config = Raise e ->
     build_alise_fs_seg build_alise MLPDecoder
       alise_build_config decoder_config train_config h = Raise e) /\
  (forall alise mlp mc,
     build_alise alise_build_config = Ok alise ->
     MLPDecoder decoder_config = Ok mlp ->
     h !! metrics train_config = Some mc ->
     exists w0,
       build_alise_fs_seg build_alise MLPDecoder
         alise_build_config decoder_config train_config h = Ok w0 /\
       model (this w0) = alise /\
       decoder (this w0) = mlp /\
       loss (this w0) = cfg_loss (train_base train_config) /\
       bs (this w0) = cfg_bs (train_base train_config) /\
       save_test_metrics (this w0) = None /\
       sink w0 = [] /\
       separated w0 /\
       forall r x, h !! r = Some x -> heap w0 !! r = Some x).
Proof.
  unfold build_alise_fs_seg. split; [|split].
  - intros e Hb. rewrite Hb. reflexivity.
  - intros alise e Hb Hd. rewrite Hb. simpl. rewrite Hd. reflexivity.
  - intros alise mlp mc Hb Hd Hm. rewrite Hb. simpl. rewrite Hd. simpl.
    rewrite (AliseFSSeg_init_ok _ _ _ _ _ Hm).
    eexists. split; [reflexivity|]. simpl.
    repeat match goal with |- _ /\ _ => split end; try reflexivity.
    + unfold separated; simpl. rewrite length_app; simpl. lia.
    + intros r x Hr. apply lookup_app_l_Some. exact Hr.
Qed.

Lemma build_alise_fs_seg_result_witness :
  build_alise_fs_seg (fun _ : unit => Raise (ExternalError "checkpoint"))
    (fun D : nat => Ok (Demo.head D)) tt 4 Demo.train_config Demo.heap0
    = Raise (ExternalError "checkpoint") /\
  exists w0,
    build_alise_fs_seg (fun _ : unit => Ok Demo.alise)
      (fun D : nat => Ok (Demo.head D)) tt 4 Demo.train_config Demo.heap0 = Ok w0 /\
    model (this w0) = Demo.alise /\
    decoder (this w0) = Demo.head 4.
Proof.
  split.
  - destruct (build_alise_fs_seg_result
                (fun _ : unit => Raise (ExternalError "checkpoint"))
                (fun D : nat => Ok (Demo.head D)) tt 4 Demo.train_config Demo.heap0)
      as (Hfail & _).
    apply Hfail. reflexivity.
  - destruct (build_alise_fs_seg_result
                (fun _ : unit => Ok Demo.alise)
                (fun D : nat => Ok (Demo.head D)) tt 4 Demo.train_config Demo.heap0)
      as (_ & _ & Hok).
    destruct (Hok Demo.alise (Demo.head 4) Demo.collection eq_refl eq_refl eq_refl)
      as (w0 & Hb & Hmo & Hde & _).
    exists w0. split; [exact Hb|]. split; [exact Hmo|exact Hde].
Defined.

Lemma training_step_logs_iff_returns_witness :
  let bad := {| year1 := year1 (Demo.batch_of 0);
                label := {| shape := [4]; data := [1; 2; 3; 4]%Z; device := cuda 0 |} |} in
  sink (snd (training_step bad 0 Demo.world0)) = [] /\
  map log_name (sink (snd (training_step (Demo.batch_of 0) 0 Demo.world0))) =
    ["train_loss"].
Proof.
  intros bad.
  destruct (training_step_logs_iff_returns bad 0 Demo.world0) as (Hbad & _).
  destruct (training_step_logs_iff_returns (Demo.batch_of 0) 0 Demo.world0)
    as (Hgood & _).
  split.
  - rewrite Hbad. reflexivity.
  - rewrite Hgood. reflexivity.
Defined.

(** ** A training epoch, from any state of the adapter *)





